(** * Crawl / extract / persist pipeline of the scraper

    A shallow embedding of [notebooks/utils/common.py] and
    [notebooks/utils/indeed.py]: the BeautifulSoup queries the extractor
    uses, the Selenium session driven by the crawl loop, the sink
    dispatcher and the retrying publisher.  Effects (navigation, sleeping,
    logging, HTTP posts, file writes) are recorded in a trace carried by a
    state-and-exception monad; the trace survives a raised exception, as
    side effects do in Python. *)

From Stdlib Require Import String Ascii List ZArith Bool Arith Lia.
Import ListNotations.
Local Open Scope string_scope.
Local Open Scope list_scope.
Set Warnings "-register-all".

(** ** Python values, truthiness and exceptions *)

(** The values the code passes around where a [str] is expected:
    a string or [None]. *)
Inductive pyval : Type :=
| PyNone
| PyStr (s : string).

(** Python truthiness: [None] and the empty string are falsy. *)
Definition truthy (v : pyval) : bool :=
  match v with
  | PyNone => false
  | PyStr s => negb (s =? "")
  end.

(** [Optional[str]] arguments such as [file_name] and [post_api_url]. *)
Definition opt_truthy (o : option string) : bool :=
  match o with
  | None => false
  | Some s => negb (s =? "")
  end.

(** A product dictionary: insertion-ordered keys. *)
Definition record : Type := list (string * pyval).

(** Exception classes that occur in the two modules.  [Timeout] and
    [ConnectionError] are the ones of [requests.exceptions]. *)
Inductive exn : Type :=
| Exception
| ValueError
| TypeError
| AttributeError
| KeyError
| UnboundLocalError
| FeatureNotFound
| WebDriverException
| TimeoutException
| RequestException
| ConnectionError
| Timeout.

Definition exn_eqb (a b : exn) : bool :=
  match a, b with
  | Exception, Exception | ValueError, ValueError | TypeError, TypeError
  | AttributeError, AttributeError | UnboundLocalError, UnboundLocalError
  | KeyError, KeyError
  | FeatureNotFound, FeatureNotFound
  | WebDriverException, WebDriverException
  | TimeoutException, TimeoutException
  | RequestException, RequestException
  | ConnectionError, ConnectionError | Timeout, Timeout => true
  | _, _ => false
  end.

(** The classes an exception is an instance of (itself and its bases). *)
Definition mro (e : exn) : list exn :=
  match e with
  | Exception => [Exception]
  | ValueError => [ValueError; Exception]
  | TypeError => [TypeError; Exception]
  | AttributeError => [AttributeError; Exception]
  | KeyError => [KeyError; Exception]
  | UnboundLocalError => [UnboundLocalError; Exception]
  | FeatureNotFound => [FeatureNotFound; ValueError; Exception]
  | WebDriverException => [WebDriverException; Exception]
  | TimeoutException => [TimeoutException; WebDriverException; Exception]
  | RequestException => [RequestException; Exception]
  | ConnectionError => [ConnectionError; RequestException; Exception]
  | Timeout => [Timeout; RequestException; Exception]
  end.

Definition isinstance (e cls : exn) : bool := existsb (exn_eqb cls) (mro e).

(** [a or b] on two class objects: a class is truthy, so the result is
    the left operand. *)
Definition class_truthy (_ : exn) : bool := true.
Definition py_or {A : Type} (is_true : A -> bool) (a b : A) : A :=
  if is_true a then a else b.

(** ** Strings *)

(** ASCII part of [str.isspace]. *)
Definition isspace (c : ascii) : bool :=
  let n := nat_of_ascii c in
  ((9 <=? n)%nat && (n <=? 13)%nat) || ((28 <=? n)%nat && (n <=? 32)%nat).

Fixpoint lstrip_chars (l : list ascii) : list ascii :=
  match l with
  | c :: t => if isspace c then lstrip_chars t else l
  | [] => []
  end.

(** [str.strip()] *)
Definition strip (s : string) : string :=
  string_of_list_ascii
    (rev (lstrip_chars (rev (lstrip_chars (list_ascii_of_string s))))).

Definition lower_char (c : ascii) : ascii :=
  let n := nat_of_ascii c in
  if ((65 <=? n)%nat && (n <=? 90)%nat) then ascii_of_nat (n + 32) else c.

(** [str.lower()] on ASCII letters. *)
Definition lower (s : string) : string :=
  string_of_list_ascii (map lower_char (list_ascii_of_string s)).

(** [str.split()]: the maximal runs of non-space characters. *)
Fixpoint split_ws_aux (l : list ascii) (cur : list ascii) : list string :=
  match l with
  | [] =>
      match cur with
      | [] => []
      | _ => [string_of_list_ascii (rev cur)]
      end
  | c :: t =>
      if isspace c then
        match cur with
        | [] => split_ws_aux t []
        | _ => string_of_list_ascii (rev cur) :: split_ws_aux t []
        end
      else split_ws_aux t (c :: cur)
  end.

Definition split_ws (s : string) : list string :=
  split_ws_aux (list_ascii_of_string s) [].

Definition str_in (s : string) (l : list string) : bool :=
  existsb (String.eqb s) l.

(** ** The parsed document (bs4) *)

(** A [Tag] with its name, attribute dictionary and contents, or a piece
    of text. *)
Inductive node : Type :=
| Tag (name : string) (attrs : list (string * string)) (contents : list node)
| NavigableString (s : string).

Definition is_tag (n : node) : bool :=
  match n with Tag _ _ _ => true | NavigableString _ => false end.

Definition tag_name (n : node) : string :=
  match n with Tag nm _ _ => nm | NavigableString _ => "" end.

Fixpoint lookup (key : string) (d : list (string * string)) : option string :=
  match d with
  | [] => None
  | (k, v) :: t => if k =? key then Some v else lookup key t
  end.

(** [tag.get(key)]: the attribute value, [None] when absent. *)
Definition tag_get (n : node) (key : string) : pyval :=
  match n with
  | Tag _ attrs _ =>
      match lookup key attrs with
      | Some v => PyStr v
      | None => PyNone
      end
  | NavigableString _ => PyNone
  end.

(** All nodes below [n], in document order. *)
Fixpoint descendants (n : node) : list node :=
  match n with
  | Tag _ _ cs => flat_map (fun c => c :: descendants c) cs
  | NavigableString _ => []
  end.

(** [tag.text]: the text pieces below the tag, concatenated. *)
Fixpoint text (n : node) : string :=
  match n with
  | NavigableString s => s
  | Tag _ _ cs => String.concat "" (map text cs)
  end.

(** [tag.find(name)]: the first tag of that name below [n]. *)
Definition find (n : node) (name : string) : option node :=
  List.find (fun d => is_tag d && (tag_name d =? name)) (descendants n).

(** The classes of a tag: the whitespace-separated tokens of [class]. *)
Definition classes (n : node) : list string :=
  match n with
  | Tag _ attrs _ =>
      match lookup "class" attrs with
      | Some v => split_ws v
      | None => []
      end
  | NavigableString _ => []
  end.

(** [tag.find(name, class_=cls)] *)
Definition find_class (n : node) (name cls : string) : option node :=
  List.find
    (fun d => is_tag d && (tag_name d =? name) && str_in cls (classes d))
    (descendants n).

(** [soup.select('div[role="listitem"]')] *)
Definition select_listitems (soup : node) : list node :=
  filter
    (fun d =>
       is_tag d && (tag_name d =? "div") &&
       match tag_get d "role" with
       | PyStr r => r =? "listitem"
       | PyNone => false
       end)
    (descendants soup).

(** ** Effects *)

Inductive level : Type := Debug | Info | Warning | Error.

(** How long a call of [time.sleep] blocks: a whole number of seconds
    (the publisher's [delay], the settle wait), a fraction given in
    milliseconds (the scroll pause of 0.5 s), or a value drawn by
    [random.uniform lo hi]. *)
Inductive duration : Type :=
| Seconds (n : Z)
| Millis (n : Z)
| Uniform (lo hi : Z).

Inductive file_format : Type := Csv | Json | Excel | Sqlite.

(** What the program does to the outside, in the order it does it.
    A log event carries the fixed part of the message; interpolated
    values and the decorative glyphs are left out. *)
Inductive event : Type :=
| EvLog (lvl : level) (msg : string)
| EvSetPageLoadTimeout (secs : Z)
| EvGet (url : string)
| EvScrollToBottom
| EvSleep (d : duration)
| EvPost (url : string) (data : list record) (timeout : Z)
| EvWrite (fmt : file_format) (file_name : string) (items : list record)
    (table_name : option string).

(** The outcome of [driver.get url]. *)
Inductive nav_outcome : Type :=
| Loaded (source : string)
| NavFails (e : exn).

(** The outcome of one [requests.post]. *)
Inductive post_outcome : Type :=
| Response (status_code : Z) (body : string)
| PostRaises (e : exn).

(** Everything outside the two modules: the sites the browser can reach,
    the height a page reports after a number of scrolls, the lxml parser
    behind [BeautifulSoup(markup, "lxml")] (it yields the contents of the
    document root), [urllib.parse.urljoin], and the receiving endpoint,
    which answers the [n]-th request it gets (counted from 1).  The
    session itself stays alive: [page_source] and [execute_script]
    always answer, only [get] can fail. *)
Record World : Type := {
  web : string -> nav_outcome;
  scroll_height : string -> nat -> Z;
  lxml_installed : bool;
  lxml_parse : string -> list node;
  urljoin : string -> string -> string;
  endpoint : nat -> post_outcome
}.

(** The browser session and the trace of effects so far. *)
Record state : Type := {
  page_source : string;
  scrolls : nat;
  trace : list event
}.

Definition emit_st (e : event) (s : state) : state :=
  {| page_source := page_source s;
     scrolls := scrolls s;
     trace := trace s ++ [e] |}.

Inductive result (A : Type) : Type :=
| Ret (a : A)
| Raise (e : exn).
Arguments Ret {A} a.
Arguments Raise {A} e.

(** A computation: runs on a state, returns or raises, and leaves a
    state behind in both cases. *)
Definition M (A : Type) : Type := state -> result A * state.

Definition ret {A : Type} (a : A) : M A := fun s => (Ret a, s).

Definition raise {A : Type} (e : exn) : M A := fun s => (Raise e, s).

Definition bind {A B : Type} (m : M A) (k : A -> M B) : M B :=
  fun s =>
    match m s with
    | (Ret a, s') => k a s'
    | (Raise e, s') => (Raise e, s')
    end.

Notation "x <- m ;; k" := (bind m (fun x => k))
  (at level 61, m at next level, right associativity).
Notation "m ;; k" := (bind m (fun _ => k))
  (at level 61, right associativity).

(** [try: body except (c1, c2, ...) as e: h1 except ...]: the first clause
    one of whose classes the exception is an instance of handles it. *)
Fixpoint select_handler {A : Type} (e : exn)
    (clauses : list (list exn * (exn -> M A))) : option (exn -> M A) :=
  match clauses with
  | [] => None
  | (cls, h) :: rest =>
      if existsb (isinstance e) cls then Some h else select_handler e rest
  end.

Definition try_except {A : Type} (body : M A)
    (clauses : list (list exn * (exn -> M A))) : M A :=
  fun s =>
    match body s with
    | (Ret a, s') => (Ret a, s')
    | (Raise e, s') =>
        match select_handler e clauses with
        | Some h => h e s'
        | None => (Raise e, s')
        end
    end.

Definition emit (e : event) : M unit := fun s => (Ret tt, emit_st e s).

Definition log (lvl : level) (msg : string) : M unit := emit (EvLog lvl msg).

(** [time.sleep]: a negative argument is a [ValueError]. *)
Definition sleep (d : duration) : M unit :=
  match d with
  | Seconds n => if (n <? 0)%Z then raise ValueError else emit (EvSleep d)
  | Millis n => if (n <? 0)%Z then raise ValueError else emit (EvSleep d)
  | Uniform _ _ => emit (EvSleep d)
  end.

(** Projections of a trace. *)
Definition is_post (e : event) : bool :=
  match e with EvPost _ _ _ => true | _ => false end.

Definition is_write (e : event) : bool :=
  match e with EvWrite _ _ _ _ => true | _ => false end.

Definition is_log (e : event) : bool :=
  match e with EvLog _ _ => true | _ => false end.

Definition count_posts (t : list event) : nat := length (filter is_post t).

(** The urls [driver.get] was called with, in order. *)
Fixpoint navigations (t : list event) : list string :=
  match t with
  | [] => []
  | EvGet u :: r => u :: navigations r
  | _ :: r => navigations r
  end.

(** The trace without its log events. *)
Definition wire (t : list event) : list event :=
  filter (fun e => negb (is_log e)) t.

(** [range(lo, hi)] *)
Definition range (lo hi : Z) : list Z :=
  map (fun i => (lo + Z.of_nat i)%Z) (seq 0 (Z.to_nat (hi - lo))).

(** [os.path.splitext(p)[1]]: the part from the last dot of the last
    path component on, leading dots of that component not counting. *)
Fixpoint rfind_from (c : ascii) (l : list ascii) (i : Z) (found : Z) : Z :=
  match l with
  | [] => found
  | x :: t => rfind_from c t (i + 1)%Z (if Ascii.eqb x c then i else found)
  end.

Definition rfind (c : ascii) (l : list ascii) : Z := rfind_from c l 0%Z (-1)%Z.

Definition splitext_ext (p : string) : string :=
  let l := list_ascii_of_string p in
  let sepIndex := rfind "/"%char l in
  let dotIndex := rfind "."%char l in
  if (sepIndex <? dotIndex)%Z then
    let filenameIndex := Z.to_nat (sepIndex + 1) in
    let stem := firstn (Z.to_nat dotIndex - filenameIndex) (skipn filenameIndex l) in
    if existsb (fun x => negb (Ascii.eqb x "."%char)) stem
    then string_of_list_ascii (skipn (Z.to_nat dotIndex) l)
    else ""
  else "".

(** [s[1:]] *)
Definition tail_str (s : string) : string :=
  match s with
  | EmptyString => EmptyString
  | String _ t => t
  end.

(** ** utils/common.py *)

Section Common.

Variable W : World.

(** *** The browser session *)

(** [driver.get(url)]: the call is made; on success the session shows
    the new page, on failure it keeps showing what it showed. *)
Definition driver_get (url : string) : M unit :=
  fun s =>
    let s1 := emit_st (EvGet url) s in
    match web W url with
    | Loaded src =>
        (Ret tt, {| page_source := src; scrolls := 0; trace := trace s1 |})
    | NavFails e => (Raise e, s1)
    end.

(** [driver.page_source] *)
Definition driver_page_source : M string :=
  fun s => (Ret (page_source s), s).

Definition set_page_load_timeout (secs : Z) : M unit :=
  emit (EvSetPageLoadTimeout secs).

(** [driver.execute_script("window.scrollTo(0, document.body.scrollHeight);")] *)
Definition scroll_to_bottom : M unit :=
  fun s =>
    (Ret tt,
     {| page_source := page_source s;
        scrolls := S (scrolls s);
        trace := trace s ++ [EvScrollToBottom] |}).

Definition get_scroll_height : M Z :=
  fun s => (Ret (scroll_height W (page_source s) (scrolls s)), s).

(** *** The markup parser *)

(** [BeautifulSoup(markup, "lxml")]: the builder is looked up first
    ([FeatureNotFound] when lxml is missing); markup that is not a string
    is a [TypeError].  The soup is the document root. *)
Definition BeautifulSoup (markup : pyval) : M node :=
  if lxml_installed W then
    match markup with
    | PyStr s => ret (Tag "[document]" [] (lxml_parse W s))
    | PyNone => raise TypeError
    end
  else raise FeatureNotFound.

Definition soup_maker (response : pyval) : M (option node) :=
  try_except
    (soup <- BeautifulSoup response ;;
     log Info "Soup created successfully" ;;
     ret (Some soup))
    [([py_or class_truthy FeatureNotFound TypeError],
      fun _ => log Error "Failed to create soup" ;; ret None)].

(** *** Loading and scrolling *)

Definition sleeper (minimum maximum : Z) : M unit :=
  let '(minimum, maximum) :=
    if (maximum <? minimum)%Z then (maximum, minimum) else (minimum, maximum) in
  log Debug "Sleeping" ;;
  sleep (Uniform minimum maximum).

(** The [for i in range(max_scrolls)] loop; returns the last value bound
    to [i], if any. *)
Fixpoint scroll_loop (scroll_pause : duration) (indices : list Z)
    (last_height : Z) (i : option Z) : M (option Z) :=
  match indices with
  | [] => ret i
  | j :: rest =>
      scroll_to_bottom ;;
      sleep scroll_pause ;;
      new_height <- get_scroll_height ;;
      log Debug "Scroll: height changed" ;;
      if (new_height =? last_height)%Z then
        log Info "No new content loaded - stopping scroll" ;;
        ret (Some j)
      else scroll_loop scroll_pause rest new_height (Some j)
  end.

Definition scroll_and_wait (wait_time : Z) (scroll_pause : duration)
    (max_scrolls : Z) : M unit :=
  last_height <- get_scroll_height ;;
  i <- scroll_loop scroll_pause (range 0 max_scrolls) last_height None ;;
  match i with
  | Some _ => log Info "Scrolling completed"
  | None => raise UnboundLocalError
  end ;;
  sleep (Seconds wait_time).

Definition loader (url : string) : M unit :=
  set_page_load_timeout 15 ;;
  driver_get url ;;
  sleeper 3 8 ;;
  scroll_and_wait 2 (Millis 500) 10.

Definition load_and_scroll (url : string) : M unit :=
  try_except
    (log Info "Navigating to" ;;
     loader url ;;
     log Info "Successfully loaded and scrolled")
    [([TimeoutException; WebDriverException],
      fun _ => log Error "Failed to load")].

(** *** The pagination resolver *)

(** [tag[key]] *)
Definition tag_index (n : node) (key : string) : M string :=
  match tag_get n key with
  | PyStr v => ret v
  | PyNone => raise KeyError
  end.

Definition pagination (soup : option node) (base_url : string) : M pyval :=
  log Debug "Checking for pagination..." ;;
  try_except
    (match soup with
     | None => raise AttributeError
     | Some soup =>
         let next_page := find_class soup "a" "s-pagination-next" in
         match next_page with
         | None => log Warning "No next page link found" ;; ret PyNone
         | Some next_page =>
             if negb (truthy (tag_get next_page "href")) then
               log Warning "No next page link found" ;; ret PyNone
             else
               href <- tag_index next_page "href" ;;
               let next_url := urljoin W base_url href in
               log Info "Found next page URL" ;;
               ret (PyStr next_url)
         end
     end)
    [([AttributeError; TypeError],
      fun _ => log Error "Pagination error" ;; ret PyNone)].

(** *** The retrying publisher *)

(** [requests.post(url, json=data, timeout=timeout)]: the request is
    sent and the endpoint decides the outcome. *)
Definition requests_post (url : string) (data : list record) (timeout : Z)
  : M (Z * string) :=
  fun s =>
    let n := S (count_posts (trace s)) in
    let s1 := emit_st (EvPost url data timeout) s in
    match endpoint W n with
    | Response code body => (Ret (code, body), s1)
    | PostRaises e => (Raise e, s1)
    end.

Definition Z_in (x : Z) (l : list Z) : bool := existsb (Z.eqb x) l.

(** The [try] statement of one iteration of the retry loop; [true] is
    the early [return True], [false] falls through to the wait. *)
Definition try_post (url : string) (data : list record) (timeout : Z)
    (attempt : Z) : M bool :=
  try_except
    (res <- requests_post url data timeout ;;
     if Z_in (fst res) [200; 201]%Z then
       log Info "Data successfully POSTed to API" ;;
       ret true
     else
       log Warning "API POST failed" ;;
       ret false)
    [([Timeout],
      fun _ => log Warning "Timeout error during POST" ;; ret false);
     ([ConnectionError],
      fun _ => log Warning "Connection error during POST" ;; ret false);
     ([RequestException],
      fun _ => log Warning "RequestException during POST" ;; ret false)].

(** [for attempt in range(1, max_retries + 1)] *)
Fixpoint retry_loop (url : string) (data : list record) (timeout : Z)
    (backoff : bool) (attempts : list Z) (delay : Z) : M bool :=
  match attempts with
  | [] =>
      log Error "All retry attempts for API POST failed." ;;
      ret false
  | attempt :: rest =>
      returned <- try_post url data timeout attempt ;;
      if returned then ret true
      else
        let delay := if backoff then (delay * 2)%Z else delay in
        sleep (Seconds delay) ;;
        retry_loop url data timeout backoff rest delay
  end.

Definition post_with_retry (url : string) (data : list record)
    (max_retries delay timeout : Z) (backoff : bool) : M bool :=
  retry_loop url data timeout backoff (range 1 (max_retries + 1)) delay.

(** *** The sink dispatcher *)

Definition post_data_to_api (post_api_url : string) (items : list record)
  : M unit :=
  try_except
    (ok <- post_with_retry post_api_url items 3 2 10 false ;;
     if ok then log Info "Successfully posted data to API"
     else log Error "Failed to post data to API")
    [([Exception], fun _ => log Error "Exception while POSTing to API")].

(** The writers: what ends up in the file is not modelled, each writer
    is one write event. *)
Definition save_to_csv (file_name : string) (items : list record) : M unit :=
  try_except
    (emit (EvWrite Csv file_name items None) ;;
     log Info "Data saved as CSV")
    [([Exception], fun _ => log Error "Failed to save CSV")].

Definition save_to_json (file_name : string) (items : list record) : M unit :=
  try_except
    (emit (EvWrite Json file_name items None) ;;
     log Info "Data saved as JSON")
    [([Exception], fun _ => log Error "Failed to save JSON")].

Definition save_to_excel (file_name : string) (items : list record) : M unit :=
  try_except
    (emit (EvWrite Excel file_name items None) ;;
     log Info "Data saved as Excel")
    [([Exception], fun _ => log Error "Failed to save Excel")].

Definition save_to_sqlite (items : list record) (db_name table_name : string)
  : M unit :=
  match items with
  | [] => log Warning "No data to save to SQLite."
  | _ =>
      try_except
        (emit (EvWrite Sqlite db_name items (Some table_name)) ;;
         log Info "Data saved to SQLite")
        [([Exception], fun _ => log Error "Failed to save to SQLite")]
  end.

Definition save_data_to_file (file_name : string) (items : list record)
    (table_name : string) : M unit :=
  try_except
    (let file_ext := lower (tail_str (splitext_ext file_name)) in
     if file_ext =? "csv" then save_to_csv file_name items
     else if file_ext =? "json" then save_to_json file_name items
     else if str_in file_ext ["xlsx"; "xls"] then save_to_excel file_name items
     else if file_ext =? "sqlite" then save_to_sqlite items file_name table_name
     else log Error "Unsupported file format")
    [([Exception], fun _ => log Error "Failed to save data")].

Definition save_as (items : list record) (file_name post_api_url : option string)
    (table_name : string) : M unit :=
  match items with
  | [] => log Warning "No items to save."
  | _ =>
      if opt_truthy post_api_url then
        post_data_to_api (match post_api_url with Some u => u | None => "" end)
          items
      else if opt_truthy file_name then
        save_data_to_file (match file_name with Some f => f | None => "" end)
          items table_name
      else log Warning "No file name provided and no API endpoint."
  end.

End Common.

(** ** utils/indeed.py *)

(** [urllib.parse.quote_plus]: letters, digits and [_.-~] stay, a space
    becomes [+], every other byte becomes [%XX]. *)
Definition always_safe (c : ascii) : bool :=
  let n := nat_of_ascii c in
  ((65 <=? n)%nat && (n <=? 90)%nat) || ((97 <=? n)%nat && (n <=? 122)%nat) ||
  ((48 <=? n)%nat && (n <=? 57)%nat) ||
  (n =? 95)%nat || (n =? 46)%nat || (n =? 45)%nat || (n =? 126)%nat.

Definition hex_digit (n : nat) : ascii :=
  if (n <? 10)%nat then ascii_of_nat (48 + n) else ascii_of_nat (55 + n).

Definition quote_char (c : ascii) : list ascii :=
  if always_safe c then [c]
  else if Ascii.eqb c " "%char then ["+"%char]
  else
    let n := nat_of_ascii c in
    ["%"%char; hex_digit (n / 16); hex_digit (n mod 16)].

Definition quote_plus (s : string) : string :=
  string_of_list_ascii (flat_map quote_char (list_ascii_of_string s)).

(** What [item.find(selector) or ""] evaluates to: a tag (a tag is always
    truthy) or the empty string. *)
Inductive pyobj : Type :=
| ObjTag (t : node)
| ObjStr (s : string).

Definition find_or_str (item : node) (selector : string) (dflt : string)
  : pyobj :=
  match find item selector with
  | Some t => ObjTag t
  | None => ObjStr dflt
  end.

(** [element.get(attr)] and [element.text]: a [str] has neither. *)
Definition obj_get (o : pyobj) (attr : string) : M pyval :=
  match o with
  | ObjTag t => ret (tag_get t attr)
  | ObjStr _ => raise AttributeError
  end.

Definition obj_text (o : pyobj) : M string :=
  match o with
  | ObjTag t => ret (text t)
  | ObjStr _ => raise AttributeError
  end.

(** The extractor object: it keeps the soup it was built with. *)
Record ProductExtractor : Type := {
  self_soup : option node;
  self_base_url : string
}.

Definition list_items (self : ProductExtractor) : M (list node) :=
  try_except
    (match self_soup self with
     | None => raise AttributeError
     | Some soup =>
         let items := select_listitems soup in
         log Info "Found product items" ;;
         ret items
     end)
    [([Exception],
      fun _ => log Error "Error locating list items" ;; ret [])].

Definition extract_text (item : node) (selector : string)
    (attr : option string) : M pyval :=
  try_except
    (let element := find_or_str item selector "" in
     if opt_truthy attr then
       obj_get element (match attr with Some a => a | None => "" end)
     else
       t <- obj_text element ;;
       ret (PyStr (strip t)))
    [([Exception],
      fun _ => log Warning "Extraction failed for selector" ;; ret (PyStr ""))].

(** [f"{base_url}{extracted}"] *)
Definition format2 (base_url : string) (extracted : pyval) : string :=
  match extracted with
  | PyStr s => base_url ++ s
  | PyNone => base_url ++ "None"
  end.

Definition extract_field (self : ProductExtractor) (item : node)
    (field_type : string) : M pyval :=
  let field_selectors := [("title", "h2"); ("image", "img"); ("link", "a")] in
  let attrs := [("image", "src"); ("link", "href")] in
  let selector := lookup field_type field_selectors in
  let attr := lookup field_type attrs in
  if negb (opt_truthy selector) then
    log Warning "Unknown field type" ;;
    ret (PyStr "")
  else
    extracted <-
      extract_text item (match selector with Some x => x | None => "" end) attr ;;
    if (field_type =? "link") && truthy extracted then
      ret (PyStr (format2 (self_base_url self) extracted))
    else ret extracted.

(** The [for item in items] loop of [extract]. *)
Fixpoint extract_items (self : ProductExtractor) (items : list node)
    (results : list record) : M (list record) :=
  match items with
  | [] => ret results
  | item :: rest =>
      title <- extract_field self item "title" ;;
      if negb (truthy title) then extract_items self rest results
      else
        image <- extract_field self item "image" ;;
        link <- extract_field self item "link" ;;
        let product := [("Title", title); ("Image", image); ("Link", link)] in
        log Debug "Product extracted" ;;
        extract_items self rest (results ++ [product])
  end.

Definition is_some {A : Type} (o : option A) : bool :=
  match o with Some _ => true | None => false end.

Definition extract (self : ProductExtractor) : M (list record) :=
  if negb (is_some (self_soup self)) then
    log Error "No soup provided to extractor" ;;
    ret []
  else
    items <- list_items self ;;
    results <- extract_items self items [] ;;
    log Info "Extracted products successfully" ;;
    ret results.

Definition pystr (v : pyval) : string :=
  match v with
  | PyStr s => s
  | PyNone => ""
  end.

Section AmazonScraper.

Variable W : World.

(** [self.url] *)
Definition url : string := "https://www.amazon.com".

Definition get_search_url (keyword : string) : string :=
  let encoded := quote_plus keyword in
  url ++ "/s?k=" ++ encoded.

Definition scrape_search_results (keyword : string) : M string :=
  let search_url := get_search_url keyword in
  log Info "Navigating to search page" ;;
  try_except
    (load_and_scroll W search_url ;;
     log Info "Page loaded and ready for scraping" ;;
     driver_page_source)
    [([Exception],
      fun _ => log Error "Error loading page for keyword" ;; ret "")].

(** The [while soup and page < max_pages] loop.  [page] goes up by one
    per iteration, so [max_pages - page] iterations are the most there
    can be; [fuel] is that bound. *)
Fixpoint scrape_loop (amazon_extractor : ProductExtractor) (fuel : nat)
    (max_pages : Z) (soup : option node) (page : Z) (results : list record)
  : M (list record) :=
  match fuel with
  | O => ret results
  | S fuel' =>
      if is_some soup && (page <? max_pages)%Z then
        data <- extract amazon_extractor ;;
        let results := results ++ data in
        log Info "Page scraped." ;;
        next_page_url <- pagination W soup url ;;
        if negb (truthy next_page_url) then ret results
        else
          driver_get W (pystr next_page_url) ;;
          sleep (Uniform 2 4) ;;
          source <- driver_page_source ;;
          soup <- soup_maker W (PyStr source) ;;
          scrape_loop amazon_extractor fuel' max_pages soup (page + 1)%Z results
      else ret results
  end.

Definition scrape_all_pages (keyword : string) (max_pages : Z)
  : M (list record) :=
  let results := [] in
  response <- scrape_search_results keyword ;;
  soup <- soup_maker W (PyStr response) ;;
  let page := 0%Z in
  let amazon_extractor := {| self_soup := soup; self_base_url := url |} in
  scrape_loop amazon_extractor (Z.to_nat (max_pages - page)) max_pages soup page
    results.

End AmazonScraper.

(** ** A small shop, used to run the code on concrete pages *)

Module Shop.

Definition page1_source : string :=
  "<div role='listitem'><h2> Widget </h2><img src='/w.png'><a href='/dp/1'>buy</a></div><a class='s-pagination-next' href='/s?k=widget&page=2'>Next</a>".

Definition page1 : list node :=
  [Tag "html" []
     [Tag "body" []
        [Tag "div" [("role", "listitem")]
           [Tag "h2" [] [NavigableString " Widget "];
            Tag "img" [("src", "/w.png")] [];
            Tag "a" [("href", "/dp/1")] [NavigableString "buy"]];
         Tag "a" [("class", "s-pagination-next");
                  ("href", "/s?k=widget&page=2")]
           [NavigableString "Next"]]]].

Definition page2_source : string :=
  "<div role='listitem'><h2>Gadget</h2><img src='/g.png'><a href='/dp/2'>buy</a></div>".

Definition page2 : list node :=
  [Tag "html" []
     [Tag "body" []
        [Tag "div" [("role", "listitem")]
           [Tag "h2" [] [NavigableString "Gadget"];
            Tag "img" [("src", "/g.png")] [];
            Tag "a" [("href", "/dp/2")] [NavigableString "buy"]]]]].

Definition blank_source : string := "<html><head></head><body></body></html>".

Definition blank : list node :=
  [Tag "html" [] [Tag "head" [] []; Tag "body" [] []]].

(** The parser on the pages of the shop; other input has no content. *)
Definition parse (source : string) : list node :=
  if source =? page1_source then page1
  else if source =? page2_source then page2
  else if source =? blank_source then blank
  else [].

(** [urljoin] for a base that is a bare origin: an empty reference gives
    the base, an absolute reference replaces it, a path is appended. *)
Definition join (base ref : string) : string :=
  if ref =? "" then base
  else if prefix "http://" ref || prefix "https://" ref then ref
  else base ++ ref.

(** The search for [widget] has two pages; the search for [gadget] times
    out; nothing else resolves. *)
Definition site (u : string) : nav_outcome :=
  if u =? "https://www.amazon.com/s?k=widget" then Loaded page1_source
  else if u =? "https://www.amazon.com/s?k=widget&page=2" then Loaded page2_source
  else if u =? "https://www.amazon.com/s?k=gadget" then NavFails TimeoutException
  else NavFails WebDriverException.

Definition always_503 (n : nat) : post_outcome :=
  Response 503 "Service Unavailable".

Definition created_on_second (n : nat) : post_outcome :=
  match n with
  | 1 => PostRaises Timeout
  | _ => Response 201 "[]"
  end.

Definition world (ep : nat -> post_outcome) : World :=
  {| web := site;
     scroll_height := fun _ _ => 1000%Z;
     lxml_installed := true;
     lxml_parse := parse;
     urljoin := join;
     endpoint := ep |}.

(** A freshly started browser. *)
Definition fresh : state :=
  {| page_source := blank_source; scrolls := 0; trace := [] |}.

(** A session that has just crawled the first page for [widget]. *)
Definition after_widget : state :=
  {| page_source := page1_source; scrolls := 1; trace := [] |}.

Definition widget : record :=
  [("Title", PyStr "Widget"); ("Image", PyStr "/w.png");
   ("Link", PyStr "https://www.amazon.com/dp/1")].

Definition gadget : record :=
  [("Title", PyStr "Gadget"); ("Image", PyStr "/g.png");
   ("Link", PyStr "https://www.amazon.com/dp/2")].


(** A results page whose next link has an empty [href]. *)
Definition next_anchor_empty : node :=
  Tag "a" [("class", "s-pagination-next"); ("href", "")]
    [NavigableString "Next"].

Definition page_empty_next : node :=
  Tag "[document]" [] [Tag "html" [] [Tag "body" [] [next_anchor_empty]]].

(** A results page whose next link is absolute. *)
Definition next_anchor_abs : node :=
  Tag "a" [("class", "a-last s-pagination-next");
           ("href", "https://www.amazon.co.uk/s?k=widget&page=2")]
    [NavigableString "Next"].

Definition page_abs_next : node :=
  Tag "[document]" [] [Tag "html" [] [Tag "body" [] [next_anchor_abs]]].

(** A listing item whose anchor is absolute. *)
Definition anchor_abs : node :=
  Tag "a" [("href", "https://www.amazon.co.uk/dp/9")] [NavigableString "buy"].

Definition item_abs : node :=
  Tag "div" [("role", "listitem")]
    [Tag "h2" [] [NavigableString "Import"]; anchor_abs].

(** A listing item whose image has no [src] and whose anchor has no
    [href]. *)
Definition bare_img : node := Tag "img" [("alt", "widget")] [].

Definition bare_anchor : node := Tag "a" [("name", "top")] [].

Definition bare_heading : node := Tag "h2" [] [NavigableString "Widget"].

Definition item_bare : node :=
  Tag "div" [("role", "listitem")] [bare_heading; bare_img; bare_anchor].

Definition page_bare : node :=
  Tag "[document]" [] [Tag "html" [] [Tag "body" [] [item_bare]]].

Definition extractor_bare : ProductExtractor :=
  {| self_soup := Some page_bare; self_base_url := url |}.

End Shop.

(** ** Vocabulary of the statements *)

(** The state [st] with the events [evs] added to its trace. *)
Definition add_events (st : state) (evs : list event) : state :=
  {| page_source := page_source st;
     scrolls := scrolls st;
     trace := trace st ++ evs |}.

(** [m] returns [v] from every state. *)
Definition returns {A : Type} (m : M A) (v : A) : Prop :=
  forall st, exists st', m st = (Ret v, st').

(** An attempt that makes the retry loop go on: a status other than 200
    and 201, or one of the request exceptions the loop catches. *)
Definition attempt_fails (o : post_outcome) : bool :=
  match o with
  | Response code _ => negb (Z_in code [200; 201]%Z)
  | PostRaises e => isinstance e RequestException
  end.

Definition next_delay (backoff : bool) (delay : Z) : Z :=
  if backoff then (delay * 2)%Z else delay.

(** What [n] failed attempts in a row put on the wire, starting from
    [delay]: a request, then the wait that follows it. *)
Fixpoint failed_rounds (url : string) (data : list record) (timeout : Z)
    (backoff : bool) (n : nat) (delay : Z) : list event :=
  match n with
  | O => []
  | S n' =>
      let d := next_delay backoff delay in
      EvPost url data timeout :: EvSleep (Seconds d) ::
      failed_rounds url data timeout backoff n' d
  end.

(** The durations slept, in order. *)
Fixpoint sleeps (t : list event) : list duration :=
  match t with
  | [] => []
  | EvSleep d :: r => d :: sleeps r
  | _ :: r => sleeps r
  end.

(** The first value stored under [key] in a product dictionary. *)
Fixpoint field (key : string) (r : record) : option pyval :=
  match r with
  | [] => None
  | (k, v) :: t => if k =? key then Some v else field key t
  end.

(** What the extractor stores for a listing item, read off the item:
    the stripped text of its first [h2]; the [src] of its first [img];
    the [href] of its first [a], with the base url put in front when it
    is a non-empty string.  A sub-element that is not there gives the
    empty string, an attribute that is not there gives [None]. *)
Definition title_value (item : node) : pyval :=
  match find item "h2" with
  | Some h => PyStr (strip (text h))
  | None => PyStr ""
  end.

Definition image_value (item : node) : pyval :=
  match find item "img" with
  | Some img => tag_get img "src"
  | None => PyStr ""
  end.

Definition link_value (base_url : string) (item : node) : pyval :=
  match find item "a" with
  | Some a =>
      match tag_get a "href" with
      | PyStr h => if h =? "" then PyStr "" else PyStr (base_url ++ h)
      | PyNone => PyNone
      end
  | None => PyStr ""
  end.

Definition item_records (base_url : string) (item : node) : list record :=
  if truthy (title_value item) then
    [[("Title", title_value item);
      ("Image", image_value item);
      ("Link", link_value base_url item)]]
  else [].

(** The records the extractor object yields, whatever page the session
    shows. *)
Definition records_of (self : ProductExtractor) : list record :=
  match self_soup self with
  | Some soup => flat_map (item_records (self_base_url self)) (select_listitems soup)
  | None => []
  end.

(** ** The format checker of utils/common.py *)

Fixpoint starts_with (p l : list ascii) : bool :=
  match p, l with
  | [], _ => true
  | a :: p', b :: l' => Ascii.eqb a b && starts_with p' l'
  | _ :: _, [] => false
  end.

(** [s.endswith(suffix)] *)
Definition endswith (s suffix : string) : bool :=
  starts_with (rev (list_ascii_of_string suffix)) (rev (list_ascii_of_string s)).

Definition VALID_EXTENSIONS : list (string * string) :=
  [(".csv", "csv"); (".json", "json"); (".xlsx", "xlsx"); (".sqlite", "sqlite")].

(** The [for ext, format_type in VALID_EXTENSIONS.items()] loop: the
    first extension the name ends with decides; none is a [ValueError]. *)
Fixpoint first_format (file_name : string) (exts : list (string * string))
  : result string :=
  match exts with
  | [] => Raise ValueError
  | (ext, format_type) :: rest =>
      if endswith file_name ext then Ret format_type
      else first_format file_name rest
  end.

Definition file_format_checker (file_name : string) : result string :=
  let file_name := lower file_name in
  first_format file_name VALID_EXTENSIONS.

(** ** More vocabulary *)

(** The number of scroll commands in a trace. *)
Fixpoint count_scrolls (t : list event) : nat :=
  match t with
  | [] => 0
  | EvScrollToBottom :: r => S (count_scrolls r)
  | _ :: r => count_scrolls r
  end.

(** Events that are all log lines. *)
Definition only_logs (evs : list event) : bool := forallb is_log evs.

(** A duration [time.sleep] accepts. *)
Definition sleepable (d : duration) : bool :=
  match d with
  | Seconds n => (0 <=? n)%Z
  | Millis n => (0 <=? n)%Z
  | Uniform _ _ => true
  end.

(** The height the page shown in [st] reports after [j] more scrolls. *)
Definition height_after (W : World) (st : state) (j : nat) : Z :=
  scroll_height W (page_source st) (scrolls st + j).

(** The state [st] after [k] more scrolls that left the events [evs]. *)
Definition after_scrolls (st : state) (k : nat) (evs : list event) : state :=
  {| page_source := page_source st;
     scrolls := scrolls st + k;
     trace := trace st ++ evs |}.

(** The extension [save_data_to_file] looks at. *)
Definition file_ext_of (file_name : string) : string :=
  lower (tail_str (splitext_ext file_name)).

(** The write a file name leads to, if any. *)
Definition write_for (file_name : string) (items : list record)
    (table_name : string) : list event :=
  let file_ext := file_ext_of file_name in
  if file_ext =? "csv" then [EvWrite Csv file_name items None]
  else if file_ext =? "json" then [EvWrite Json file_name items None]
  else if str_in file_ext ["xlsx"; "xls"] then [EvWrite Excel file_name items None]
  else if file_ext =? "sqlite" then
    [EvWrite Sqlite file_name items (Some table_name)]
  else [].

(** [n] copies of a batch of records, one after the other. *)
Fixpoint batches (n : nat) (batch : list record) : list record :=
  match n with
  | O => []
  | S k => batch ++ batches k batch
  end.

(** The characters [quote_plus] lets through or produces. *)
Definition url_safe (c : ascii) : bool :=
  always_safe c || Ascii.eqb c "+"%char || Ascii.eqb c "%"%char.

(** ** Variations of the shop *)

Module Outlet.

(** A page that grows on the first three scrolls and then stays. *)
Definition lazy_height (source : string) (n : nat) : Z :=
  (1000 + 500 * Z.of_nat (Nat.min n 3))%Z.

(** A page that grows on every scroll. *)
Definition endless_height (source : string) (n : nat) : Z :=
  (1000 * (1 + Z.of_nat n))%Z.

Definition with_heights (h : string -> nat -> Z) : World :=
  {| web := Shop.site;
     scroll_height := h;
     lxml_installed := true;
     lxml_parse := Shop.parse;
     urljoin := Shop.join;
     endpoint := Shop.always_503 |}.

(** The second page of the search does not load. *)
Definition broken_site (u : string) : nav_outcome :=
  if u =? "https://www.amazon.com/s?k=widget" then Loaded Shop.page1_source
  else NavFails WebDriverException.

Definition broken : World :=
  {| web := broken_site;
     scroll_height := fun _ _ => 1000%Z;
     lxml_installed := true;
     lxml_parse := Shop.parse;
     urljoin := Shop.join;
     endpoint := Shop.always_503 |}.

(** The search leads straight to a page without a next link. *)
Definition single_site (u : string) : nav_outcome :=
  if u =? "https://www.amazon.com/s?k=gadget" then Loaded Shop.page2_source
  else NavFails WebDriverException.

Definition single : World :=
  {| web := single_site;
     scroll_height := fun _ _ => 1000%Z;
     lxml_installed := true;
     lxml_parse := Shop.parse;
     urljoin := Shop.join;
     endpoint := Shop.always_503 |}.

(** The shop on a machine without lxml. *)
Definition no_lxml : World :=
  {| web := Shop.site;
     scroll_height := fun _ _ => 1000%Z;
     lxml_installed := false;
     lxml_parse := Shop.parse;
     urljoin := Shop.join;
     endpoint := Shop.always_503 |}.

(** An endpoint whose client fails before anything is sent back, with
    an exception that is no request exception. *)
Definition crashing (n : nat) : post_outcome := PostRaises TypeError.

(** An endpoint that accepts every batch. *)
Definition accepting (n : nat) : post_outcome := Response 201 "[]".

(** A listing item without a heading next to one with a heading. *)
Definition item_untitled : node :=
  Tag "div" [("role", "listitem")]
    [Tag "img" [("src", "/x.png")] []; Tag "a" [("href", "/dp/7")] []].

Definition page_mixed : node :=
  Tag "[document]" []
    [Tag "html" []
       [Tag "body" [] [item_untitled; Shop.item_bare; Shop.item_abs]]].

End Outlet.

(** ** The helpers on concrete input *)

Example strip_title : strip "  Widget Pro " = "Widget Pro".
Proof. reflexivity. Qed.

Example lower_ext : lower "JSON" = "json".
Proof. reflexivity. Qed.

Example classes_of_next_link :
  classes Shop.next_anchor_abs = ["a-last"; "s-pagination-next"].
Proof. reflexivity. Qed.

Example splitext_last_dot : splitext_ext "out/archive.tar.GZ" = ".GZ".
Proof. reflexivity. Qed.

Example splitext_hidden_file : splitext_ext "out/.products" = "".
Proof. reflexivity. Qed.

Example splitext_dot_in_directory : splitext_ext "out.d/products" = "".
Proof. reflexivity. Qed.

Example quote_plus_keyword :
  get_search_url "usb c/hub" = "https://www.amazon.com/s?k=usb+c%2Fhub".
Proof. reflexivity. Qed.

Example range_attempts : range 1 (3 + 1) = [1; 2; 3]%Z.
Proof. reflexivity. Qed.

Example range_negative : range 1 (-2 + 1) = [].
Proof. reflexivity. Qed.

(** A timeout is a WebDriver failure; a [TypeError] is not a
    [FeatureNotFound]. *)
Example timeout_is_webdriver_exception :
  isinstance TimeoutException WebDriverException = true /\
  isinstance TypeError FeatureNotFound = false.
Proof. split; reflexivity. Qed.

(** The first page of the shop as the extractor sees it. *)
Example first_page_records :
  records_of {| self_soup := Some (Tag "[document]" [] Shop.page1);
                self_base_url := url |} = [Shop.widget].
Proof. reflexivity. Qed.

(** ** Traces and states *)

Lemma emit_st_add st e : emit_st e st = add_events st [e].
Proof. reflexivity. Qed.

Lemma add_events_nil st : add_events st [] = st.
Proof. destruct st; unfold add_events; simpl. now rewrite app_nil_r. Qed.

Lemma add_events_add st evs evs' :
  add_events (add_events st evs) evs' = add_events st (evs ++ evs').
Proof. unfold add_events; simpl. now rewrite app_assoc. Qed.

Lemma wire_app t u : wire (t ++ u) = wire t ++ wire u.
Proof. unfold wire. apply filter_app. Qed.

Lemma count_posts_app t u : count_posts (t ++ u) = count_posts t + count_posts u.
Proof. unfold count_posts. now rewrite filter_app, length_app. Qed.

Lemma sleeps_app t u : sleeps (t ++ u) = sleeps t ++ sleeps u.
Proof.
  induction t as [|e t IH]; simpl; [reflexivity|].
  destruct e; simpl; now rewrite ?IH.
Qed.

Lemma count_posts_failed_rounds url data timeout backoff n delay :
  count_posts (failed_rounds url data timeout backoff n delay) = n.
Proof.
  revert delay. induction n as [|n IH]; intros delay; simpl; [reflexivity|].
  unfold count_posts in *. simpl. now rewrite IH.
Qed.

Lemma length_range lo hi : length (range lo hi) = Z.to_nat (hi - lo).
Proof. unfold range. now rewrite length_map, length_seq. Qed.

(** ** The retrying publisher *)

Section Publisher.

Variable W : World.
Variables (url : string) (data : list record) (timeout : Z).

(** A failed attempt is logged as a warning and falls through. *)
Lemma try_post_fails attempt st :
  attempt_fails (endpoint W (S (count_posts (trace st)))) = true ->
  exists msg,
    try_post W url data timeout attempt st =
    (Ret false, add_events st [EvPost url data timeout; EvLog Warning msg]).
Proof.
  intros H. unfold try_post, try_except, bind, requests_post.
  destruct (endpoint W (S (count_posts (trace st)))) as [code body|e];
    simpl in H.
  - simpl. apply negb_true_iff in H. simpl in H. rewrite H.
    eexists. unfold log, emit, ret. rewrite !emit_st_add, add_events_add.
    reflexivity.
  - destruct e; try discriminate H; simpl; eexists;
      unfold log, emit, ret; rewrite !emit_st_add, add_events_add;
      reflexivity.
Qed.

(** A 200 or 201 answer returns at once. *)
Lemma try_post_succeeds attempt st code body :
  endpoint W (S (count_posts (trace st))) = Response code body ->
  (code = 200 \/ code = 201)%Z ->
  try_post W url data timeout attempt st =
  (Ret true,
   add_events st
     [EvPost url data timeout;
      EvLog Info "Data successfully POSTed to API"]).
Proof.
  intros E Hc. unfold try_post, try_except, bind, requests_post.
  rewrite E. simpl.
  assert (Hin : Z_in code [200; 201]%Z = true)
    by (destruct Hc; subst; reflexivity).
  simpl in Hin. rewrite Hin.
  unfold log, emit, ret. now rewrite !emit_st_add, add_events_add.
Qed.

Lemma sleep_seconds d st :
  (0 <= d)%Z -> sleep (Seconds d) st = (Ret tt, add_events st [EvSleep (Seconds d)]).
Proof.
  intros H. unfold sleep. destruct (d <? 0)%Z eqn:E; [lia|]. reflexivity.
Qed.

Lemma next_delay_nonneg backoff d : (0 <= d)%Z -> (0 <= next_delay backoff d)%Z.
Proof. unfold next_delay. destruct backoff; lia. Qed.

(** When every request of the run fails, every attempt is made and
    followed by its wait, and the loop gives up with [False]. *)
Lemma retry_loop_all_fail backoff attempts :
  forall delay st,
  (forall i, i < length attempts ->
     attempt_fails (endpoint W (S (count_posts (trace st)) + i)) = true) ->
  (0 <= delay)%Z ->
  exists st',
    retry_loop W url data timeout backoff attempts delay st = (Ret false, st') /\
    wire (trace st') =
    wire (trace st) ++
    failed_rounds url data timeout backoff (length attempts) delay.
Proof.
  induction attempts as [|a rest IH]; intros delay st Hfail Hd.
  - simpl. eexists. split; [reflexivity|]. simpl.
    rewrite wire_app. reflexivity.
  - assert (H0 : attempt_fails (endpoint W (S (count_posts (trace st)))) = true).
    { specialize (Hfail 0 ltac:(simpl; lia)). now rewrite Nat.add_0_r in Hfail. }
    destruct (try_post_fails a st H0) as [msg Hstep].
    pose proof (next_delay_nonneg backoff delay Hd) as Hd'.
    simpl retry_loop. unfold bind at 1. rewrite Hstep.
    unfold bind at 1. fold (next_delay backoff delay).
    rewrite (sleep_seconds _ _ Hd'), add_events_add.
    set (st1 := add_events st _).
    assert (Hcount : count_posts (trace st1) = S (count_posts (trace st))).
    { unfold st1. simpl. rewrite count_posts_app. simpl.
      unfold count_posts at 2. simpl. lia. }
    destruct (IH (next_delay backoff delay) st1) as [st' [Hrun Hwire]].
    + intros i Hi. rewrite Hcount.
      replace (S (S (count_posts (trace st))) + i)
        with (S (count_posts (trace st)) + S i) by lia.
      apply Hfail. simpl. lia.
    + exact Hd'.
    + exists st'. split; [exact Hrun|].
      rewrite Hwire. unfold st1. simpl. rewrite wire_app. simpl.
      now rewrite <- app_assoc.
Qed.

(** When the first [k] requests fail and the next one is answered with
    200 or 201, the loop returns [True] right after that request. *)
Lemma retry_loop_first_success backoff k :
  forall attempts delay st code body,
  k < length attempts ->
  (0 <= delay)%Z ->
  (forall i, i < k ->
     attempt_fails (endpoint W (S (count_posts (trace st)) + i)) = true) ->
  endpoint W (S (count_posts (trace st)) + k) = Response code body ->
  (code = 200 \/ code = 201)%Z ->
  exists st',
    retry_loop W url data timeout backoff attempts delay st = (Ret true, st') /\
    wire (trace st') =
    wire (trace st) ++
    failed_rounds url data timeout backoff k delay ++ [EvPost url data timeout].
Proof.
  induction k as [|k IH]; intros attempts delay st code body Hlen Hd Hf Hok Hc;
    (destruct attempts as [|a rest]; [simpl in Hlen; lia|]).
  - rewrite Nat.add_0_r in Hok.
    simpl retry_loop. unfold bind at 1.
    rewrite (try_post_succeeds a st code body Hok Hc).
    eexists. split; [reflexivity|].
    simpl. rewrite wire_app. reflexivity.
  - assert (H0 : attempt_fails (endpoint W (S (count_posts (trace st)))) = true).
    { specialize (Hf 0 ltac:(lia)). now rewrite Nat.add_0_r in Hf. }
    destruct (try_post_fails a st H0) as [msg Hstep].
    pose proof (next_delay_nonneg backoff delay Hd) as Hd'.
    simpl retry_loop. unfold bind at 1. rewrite Hstep.
    unfold bind at 1. fold (next_delay backoff delay).
    rewrite (sleep_seconds _ _ Hd'), add_events_add.
    set (st1 := add_events st _).
    assert (Hcount : count_posts (trace st1) = S (count_posts (trace st))).
    { unfold st1. simpl. rewrite count_posts_app. simpl.
      unfold count_posts at 2. simpl. lia. }
    destruct (IH rest (next_delay backoff delay) st1 code body) as [st' [Hrun Hw]].
    + simpl in Hlen. lia.
    + exact Hd'.
    + intros i Hi. rewrite Hcount.
      replace (S (S (count_posts (trace st))) + i)
        with (S (count_posts (trace st)) + S i) by lia.
      apply Hf. lia.
    + rewrite Hcount.
      replace (S (S (count_posts (trace st))) + k)
        with (S (count_posts (trace st)) + S k) by lia.
      exact Hok.
    + exact Hc.
    + exists st'. split; [exact Hrun|].
      rewrite Hw. unfold st1. simpl. rewrite wire_app. simpl.
      now rewrite <- app_assoc.
Qed.

End Publisher.

Lemma count_posts_wire t : count_posts (wire t) = count_posts t.
Proof.
  unfold count_posts, wire.
  induction t as [|e t IH]; simpl; [reflexivity|].
  destruct e; simpl; now rewrite ?IH.
Qed.

(** With back-off the wait after the [k]-th failed attempt in a row is
    the initial delay doubled [k] times. *)
Lemma failed_rounds_backoff url data timeout d0 n :
  forall s,
  failed_rounds url data timeout true n (d0 * 2 ^ Z.of_nat s)%Z =
  flat_map
    (fun k => [EvPost url data timeout;
               EvSleep (Seconds (d0 * 2 ^ Z.of_nat k)%Z)])
    (seq (S s) n).
Proof.
  induction n as [|n IH]; intros s; simpl; [reflexivity|].
  assert (E : (d0 * 2 ^ Z.of_nat s * 2 = d0 * 2 ^ Z.of_nat (S s))%Z).
  { rewrite Nat2Z.inj_succ, Z.pow_succ_r by lia. lia. }
  unfold next_delay. rewrite E. f_equal. f_equal. apply IH.
Qed.

Lemma sleeps_failed_rounds_backoff url data timeout d0 n :
  sleeps (failed_rounds url data timeout true n d0) =
  map (fun k => Seconds (d0 * 2 ^ Z.of_nat k)%Z) (seq 1 n).
Proof.
  replace d0 with (d0 * 2 ^ Z.of_nat 0)%Z at 1 by (simpl; lia).
  rewrite failed_rounds_backoff.
  generalize 1. induction n as [|n IH]; intros s; simpl; [reflexivity|].
  now rewrite IH.
Qed.

Lemma sleeps_wire t : sleeps (wire t) = sleeps t.
Proof.
  unfold wire.
  induction t as [|e t IH]; simpl; [reflexivity|].
  destruct e; simpl; now rewrite ?IH.
Qed.

(** C5. [post_with_retry] with [max_retries = 3] against an endpoint that
    answers 503 to every request sends exactly three requests, returns
    [False] and raises nothing, whatever the url, the batch, the timeout
    and the back-off flag (and for every delay [time.sleep] accepts). *)
Theorem post_with_retry_always_503
    (W : World) (url : string) (data : list record) (delay timeout : Z)
    (backoff : bool) (st : state) :
  (forall n, exists body, endpoint W n = Response 503 body) ->
  (0 <= delay)%Z ->
  exists st',
    post_with_retry W url data 3 delay timeout backoff st = (Ret false, st') /\
    count_posts (trace st') = count_posts (trace st) + 3 /\
    filter is_post (trace st') =
    filter is_post (trace st) ++
    [EvPost url data timeout; EvPost url data timeout; EvPost url data timeout].
Proof.
  intros H503 Hd.
  assert (Hfail : forall n, attempt_fails (endpoint W n) = true).
  { intros n. destruct (H503 n) as [body E]. now rewrite E. }
  destruct (retry_loop_all_fail W url data timeout backoff
              (range 1 (3 + 1)) delay st (fun i _ => Hfail _) Hd)
    as [st' [Hrun Hw]].
  exists st'. split; [exact Hrun|].
  assert (Hp : filter is_post (trace st') =
               filter is_post (trace st) ++
               [EvPost url data timeout; EvPost url data timeout;
                EvPost url data timeout]).
  { assert (Hfw : forall t, filter is_post (wire t) = filter is_post t).
    { induction t as [|e t IH]; simpl; [reflexivity|].
      destruct e; simpl; now rewrite ?IH. }
    rewrite <- (Hfw (trace st')), Hw, filter_app, Hfw. reflexivity. }
  split; [|exact Hp].
  unfold count_posts. rewrite Hp, length_app. reflexivity.
Qed.

Lemma post_with_retry_always_503_witness :
  (forall n, exists body,
     endpoint (Shop.world Shop.always_503) n = Response 503 body) /\
  (0 <= 2)%Z /\
  exists st',
    post_with_retry (Shop.world Shop.always_503)
      "http://127.0.0.1:5000/api/products/" [Shop.widget] 3 2 10 false
      Shop.fresh = (Ret false, st') /\
    count_posts (trace st') = count_posts (trace Shop.fresh) + 3 /\
    filter is_post (trace st') =
    filter is_post (trace Shop.fresh) ++
    [EvPost "http://127.0.0.1:5000/api/products/" [Shop.widget] 10;
     EvPost "http://127.0.0.1:5000/api/products/" [Shop.widget] 10;
     EvPost "http://127.0.0.1:5000/api/products/" [Shop.widget] 10].
Proof.
  split; [intros n; exists "Service Unavailable"; reflexivity|].
  split; [lia|].
  apply (post_with_retry_always_503 (Shop.world Shop.always_503)).
  - intros n; exists "Service Unavailable"; reflexivity.
  - lia.
Defined.

(** C6. With [backoff = True] and [delay = 2], when every attempt of
    the run fails (the requests the endpoint gets from this call on),
    the wait that follows the [k]-th attempt lasts [2 * 2 ^ k] seconds:
    4 s before attempt 2, 8 s before attempt 3, and the doubled delay is
    also slept after the last attempt, which no attempt follows. *)
Theorem post_with_retry_backoff_waits
    (W : World) (url : string) (data : list record) (max_retries timeout : Z)
    (st : state) :
  (forall i, i < Z.to_nat max_retries ->
     attempt_fails (endpoint W (S (count_posts (trace st)) + i)) = true) ->
  exists st',
    post_with_retry W url data max_retries 2 timeout true st = (Ret false, st') /\
    wire (trace st') =
    wire (trace st) ++
    flat_map
      (fun k => [EvPost url data timeout;
                 EvSleep (Seconds (2 * 2 ^ Z.of_nat k)%Z)])
      (seq 1 (Z.to_nat max_retries)) /\
    sleeps (trace st') =
    sleeps (trace st) ++
    map (fun k => Seconds (2 * 2 ^ Z.of_nat k)%Z) (seq 1 (Z.to_nat max_retries)).
Proof.
  intros Hfail.
  assert (Hlen : length (range 1 (max_retries + 1)) = Z.to_nat max_retries).
  { rewrite length_range. f_equal. lia. }
  destruct (retry_loop_all_fail W url data timeout true
              (range 1 (max_retries + 1)) 2%Z st)
    as [st' [Hrun Hw]].
  { intros i Hi. apply Hfail. now rewrite <- Hlen. }
  { lia. }
  rewrite Hlen in Hw.
  exists st'. split; [exact Hrun|]. split.
  - rewrite Hw. f_equal.
    replace 2%Z with (2 * 2 ^ Z.of_nat 0)%Z at 1 by reflexivity.
    apply failed_rounds_backoff.
  - rewrite <- (sleeps_wire (trace st')), Hw, sleeps_app, sleeps_wire.
    now rewrite sleeps_failed_rounds_backoff.
Qed.

Lemma post_with_retry_backoff_waits_witness :
  (forall i, i < Z.to_nat 3 ->
     attempt_fails
       (endpoint (Shop.world Shop.always_503)
          (S (count_posts (trace Shop.fresh)) + i)) = true) /\
  exists st',
    post_with_retry (Shop.world Shop.always_503)
      "http://127.0.0.1:5000/api/products/" [Shop.widget] 3 2 10 true
      Shop.fresh = (Ret false, st') /\
    wire (trace st') =
    [EvPost "http://127.0.0.1:5000/api/products/" [Shop.widget] 10;
     EvSleep (Seconds 4);
     EvPost "http://127.0.0.1:5000/api/products/" [Shop.widget] 10;
     EvSleep (Seconds 8);
     EvPost "http://127.0.0.1:5000/api/products/" [Shop.widget] 10;
     EvSleep (Seconds 16)] /\
    sleeps (trace st') = [Seconds 4; Seconds 8; Seconds 16].
Proof.
  split; [intros i Hi; reflexivity|].
  exact (post_with_retry_backoff_waits (Shop.world Shop.always_503)
           "http://127.0.0.1:5000/api/products/" [Shop.widget] 3 10 Shop.fresh
           (fun i _ => eq_refl)).
Defined.

(** C7. When the first [failures] requests fail and the next one is
    answered with 200 or 201, [post_with_retry] returns [True] after
    exactly [failures + 1] requests: the successful request is the last
    thing it does on the wire, no request and no wait follows it.  With
    [failures = 1] and status 201 this is the endpoint that fails once
    and answers 201 to the second attempt. *)
Theorem post_with_retry_stops_at_first_success
    (W : World) (url : string) (data : list record)
    (max_retries delay timeout : Z) (backoff : bool) (st : state)
    (failures : nat) (code : Z) (body : string) :
  (Z.of_nat failures < max_retries)%Z ->
  (0 <= delay)%Z ->
  (forall i, i < failures ->
     attempt_fails (endpoint W (S (count_posts (trace st)) + i)) = true) ->
  endpoint W (S (count_posts (trace st)) + failures) = Response code body ->
  (code = 200 \/ code = 201)%Z ->
  exists st',
    post_with_retry W url data max_retries delay timeout backoff st =
    (Ret true, st') /\
    wire (trace st') =
    wire (trace st) ++
    failed_rounds url data timeout backoff failures delay ++
    [EvPost url data timeout] /\
    count_posts (trace st') = count_posts (trace st) + failures + 1.
Proof.
  intros Hk Hd Hf Hok Hc.
  destruct (retry_loop_first_success W url data timeout backoff failures
              (range 1 (max_retries + 1)) delay st code body)
    as [st' [Hrun Hw]]; try assumption.
  - rewrite length_range. lia.
  - exists st'. split; [exact Hrun|]. split; [exact Hw|].
    rewrite <- (count_posts_wire (trace st')), Hw, !count_posts_app.
    rewrite count_posts_wire, count_posts_failed_rounds.
    change (count_posts [EvPost url data timeout]) with 1. lia.
Qed.

Lemma post_with_retry_stops_at_first_success_witness :
  exists st',
    post_with_retry (Shop.world Shop.created_on_second)
      "http://127.0.0.1:5000/api/products/" [Shop.widget] 3 2 10 false
      Shop.fresh = (Ret true, st') /\
    wire (trace st') =
    [EvPost "http://127.0.0.1:5000/api/products/" [Shop.widget] 10;
     EvSleep (Seconds 2);
     EvPost "http://127.0.0.1:5000/api/products/" [Shop.widget] 10] /\
    count_posts (trace st') = 2.
Proof.
  apply (post_with_retry_stops_at_first_success
           (Shop.world Shop.created_on_second)
           "http://127.0.0.1:5000/api/products/" [Shop.widget] 3 2 10 false
           Shop.fresh 1 201 "[]").
  - lia.
  - lia.
  - intros i Hi. assert (i = 0) by lia. subst i. reflexivity.
  - reflexivity.
  - right. reflexivity.
Defined.

(** ** The sink dispatcher *)

(** With records to hand over and an endpoint configured, the dispatcher
    publishes and writes no file, even when a file name is given too. *)
Example save_as_endpoint_posts :
  let st' :=
    snd (save_as (Shop.world Shop.created_on_second) [Shop.widget]
           (Some "products.csv") (Some "http://127.0.0.1:5000/api/products/")
           "products" Shop.fresh) in
  count_posts (trace st') = 2 /\ filter is_write (trace st') = [].
Proof. split; reflexivity. Qed.

(** With records and only a file name, it writes in the format of the
    extension, read case-insensitively. *)
Example save_as_file_writes :
  filter is_write
    (trace (snd (save_as (Shop.world Shop.always_503) [Shop.widget]
                   (Some "out/products.JSON") None "products" Shop.fresh))) =
  [EvWrite Json "out/products.JSON" [Shop.widget] None].
Proof. reflexivity. Qed.

(** C9. Dispatching an empty record sequence does nothing but log one
    warning, whatever file name, endpoint and table name are configured:
    the trace gains no file write and no request. *)
Theorem save_as_empty_is_noop
    (W : World) (file_name post_api_url : option string) (table_name : string)
    (st : state) :
  save_as W [] file_name post_api_url table_name st =
  (Ret tt, add_events st [EvLog Warning "No items to save."]) /\
  filter is_write (trace (snd (save_as W [] file_name post_api_url table_name st))) =
  filter is_write (trace st) /\
  filter is_post (trace (snd (save_as W [] file_name post_api_url table_name st))) =
  filter is_post (trace st).
Proof.
  split; [reflexivity|].
  simpl. rewrite !filter_app. simpl. now rewrite !app_nil_r.
Qed.

(** ** The field extractor *)

Section Extractor.

Variable self : ProductExtractor.

Lemma extract_field_title item st :
  exists evs,
    extract_field self item "title" st =
    (Ret (title_value item), add_events st evs).
Proof.
  unfold extract_field, extract_text, title_value, find_or_str,
    try_except, bind.
  simpl. destruct (find item "h2") as [h|]; simpl.
  - exists []. now rewrite add_events_nil.
  - eexists. unfold log, emit, ret, bind. rewrite emit_st_add. reflexivity.
Qed.

Lemma extract_field_image item st :
  exists evs,
    extract_field self item "image" st =
    (Ret (image_value item), add_events st evs).
Proof.
  unfold extract_field, extract_text, image_value, find_or_str,
    try_except, bind.
  simpl. destruct (find item "img") as [img|]; simpl.
  - exists []. now rewrite add_events_nil.
  - eexists. unfold log, emit, ret, bind. rewrite emit_st_add. reflexivity.
Qed.

Lemma extract_field_link item st :
  exists evs,
    extract_field self item "link" st =
    (Ret (link_value (self_base_url self) item), add_events st evs).
Proof.
  unfold extract_field, extract_text, link_value, find_or_str,
    try_except, bind.
  simpl. destruct (find item "a") as [a|]; simpl.
  - exists []. rewrite add_events_nil.
    destruct (tag_get a "href") as [|h]; simpl; [reflexivity|].
    destruct (String.eqb_spec h ""); [subst h|]; reflexivity.
  - eexists. unfold log, emit, ret, bind. rewrite emit_st_add. reflexivity.
Qed.

Lemma extract_items_result items :
  forall results st,
  exists evs,
    extract_items self items results st =
    (Ret (results ++ flat_map (item_records (self_base_url self)) items),
     add_events st evs).
Proof.
  induction items as [|item rest IH]; intros results st.
  - exists []. simpl. now rewrite app_nil_r, add_events_nil.
  - destruct (extract_field_title item st) as [e1 H1].
    simpl extract_items. unfold bind at 1. rewrite H1.
    simpl flat_map. unfold item_records at 1.
    destruct (truthy (title_value item)) eqn:Ht.
    + change (negb true) with false. cbv iota.
      destruct (extract_field_image item (add_events st e1)) as [e2 H2].
      unfold bind at 1. rewrite H2.
      destruct (extract_field_link item (add_events (add_events st e1) e2))
        as [e3 H3].
      unfold bind at 1. rewrite H3.
      unfold bind at 1, log at 1, emit at 1.
      rewrite emit_st_add, !add_events_add.
      match goal with
      | |- context [extract_items self rest ?r ?s] =>
          destruct (IH r s) as [e4 H4]
      end.
      rewrite H4. eexists. rewrite add_events_add, <- app_assoc. reflexivity.
    + change (negb false) with true. cbv iota.
      destruct (IH results (add_events st e1)) as [e4 H4].
      rewrite H4. eexists. rewrite add_events_add. reflexivity.
Qed.

(** [extract] returns the records of the listing items of the soup the
    extractor was built with, in document order. *)
Lemma extract_result soup st :
  self_soup self = Some soup ->
  exists evs,
    extract self st =
    (Ret (flat_map (item_records (self_base_url self)) (select_listitems soup)),
     add_events st evs).
Proof.
  intros Hs. unfold extract, list_items, try_except. rewrite Hs. simpl.
  unfold bind at 1. unfold bind at 2. unfold log at 1, emit at 1, ret at 1.
  rewrite emit_st_add.
  destruct (extract_items_result (select_listitems soup) []
              (add_events st [EvLog Info "Found product items"])) as [e H].
  unfold bind at 1. rewrite H. simpl.
  unfold bind, log, emit, ret. rewrite emit_st_add, !add_events_add.
  eexists. reflexivity.
Qed.

End Extractor.

(** C10. A listing item with a title whose [img] is there but has no
    [src], or whose [a] is there but has no [href], gets a record whose
    [Image], respectively [Link], is [None]: not the empty string, and
    for the link without the base url in front.  So [extract] hands out
    records with values that are not strings. *)
Theorem extract_keeps_missing_attribute_as_none
    (self : ProductExtractor) (soup item h : node) (st : state) :
  self_soup self = Some soup ->
  In item (select_listitems soup) ->
  find item "h2" = Some h ->
  strip (text h) <> "" ->
  exists results st' image link,
    extract self st = (Ret results, st') /\
    In [("Title", PyStr (strip (text h))); ("Image", image); ("Link", link)]
      results /\
    (forall img,
       find item "img" = Some img -> tag_get img "src" = PyNone ->
       image = PyNone) /\
    (forall a,
       find item "a" = Some a -> tag_get a "href" = PyNone ->
       link = PyNone).
Proof.
  intros Hs Hin Hh Ht.
  destruct (extract_result self soup st Hs) as [evs Hrun].
  exists (flat_map (item_records (self_base_url self)) (select_listitems soup)),
    (add_events st evs), (image_value item),
    (link_value (self_base_url self) item).
  split; [exact Hrun|]. split; [|split].
  - apply in_flat_map. exists item. split; [exact Hin|].
    unfold item_records, title_value. rewrite Hh. simpl.
    apply String.eqb_neq in Ht. rewrite Ht. simpl. now left.
  - intros img Hf Hg. unfold image_value. now rewrite Hf.
  - intros a Hf Hg. unfold link_value. now rewrite Hf, Hg.
Qed.

Lemma extract_keeps_missing_attribute_as_none_witness :
  exists results st',
    extract Shop.extractor_bare Shop.fresh = (Ret results, st') /\
    In [("Title", PyStr "Widget"); ("Image", PyNone); ("Link", PyNone)] results.
Proof.
  destruct (extract_keeps_missing_attribute_as_none
              Shop.extractor_bare Shop.page_bare Shop.item_bare
              Shop.bare_heading Shop.fresh)
    as [results [st' [image [link [Hrun [Hin [Himg Hlink]]]]]]].
  - reflexivity.
  - simpl. left. reflexivity.
  - reflexivity.
  - discriminate.
  - exists results, st'. split; [exact Hrun|].
    rewrite (Himg Shop.bare_img eq_refl eq_refl) in Hin.
    rewrite (Hlink Shop.bare_anchor eq_refl eq_refl) in Hin.
    exact Hin.
Defined.

(** ** The pagination resolver *)

Lemma pagination_next W soup base_url next_page href st :
  find_class soup "a" "s-pagination-next" = Some next_page ->
  tag_get next_page "href" = PyStr href ->
  href <> "" ->
  pagination W (Some soup) base_url st =
  (Ret (PyStr (urljoin W base_url href)),
   add_events st
     [EvLog Debug "Checking for pagination..."; EvLog Info "Found next page URL"]).
Proof.
  intros Hf Hg Hne. apply String.eqb_neq in Hne.
  unfold pagination, try_except, bind, tag_index. simpl.
  rewrite Hf, Hg. simpl. rewrite Hne. simpl.
  rewrite !emit_st_add, add_events_add. reflexivity.
Qed.

Lemma pagination_no_href W soup base_url next_page st :
  find_class soup "a" "s-pagination-next" = Some next_page ->
  truthy (tag_get next_page "href") = false ->
  pagination W (Some soup) base_url st =
  (Ret PyNone,
   add_events st
     [EvLog Debug "Checking for pagination...";
      EvLog Warning "No next page link found"]).
Proof.
  intros Hf Hg.
  unfold pagination, try_except, bind. simpl.
  rewrite Hf, Hg. simpl.
  rewrite !emit_st_add, add_events_add. reflexivity.
Qed.

Lemma pagination_no_link W soup base_url st :
  find_class soup "a" "s-pagination-next" = None ->
  pagination W (Some soup) base_url st =
  (Ret PyNone,
   add_events st
     [EvLog Debug "Checking for pagination...";
      EvLog Warning "No next page link found"]).
Proof.
  intros Hf.
  unfold pagination, try_except, bind. simpl.
  rewrite Hf. simpl.
  rewrite !emit_st_add, add_events_add. reflexivity.
Qed.

(** The next link of this page carries an [href], the empty one, and the
    resolver answers [None], not the url that joining would give. *)
Lemma pagination_empty_href_counterexample :
  find_class Shop.page_empty_next "a" "s-pagination-next" =
    Some Shop.next_anchor_empty /\
  tag_get Shop.next_anchor_empty "href" = PyStr "" /\
  fst (pagination (Shop.world Shop.always_503) (Some Shop.page_empty_next)
         url Shop.fresh) = Ret PyNone /\
  fst (pagination (Shop.world Shop.always_503) (Some Shop.page_empty_next)
         url Shop.fresh) <>
  Ret (PyStr (urljoin (Shop.world Shop.always_503) url "")).
Proof.
  split; [reflexivity|]. split; [reflexivity|]. split; [reflexivity|].
  discriminate.
Qed.

(** C8 (amended). The two resolutions differ.  A listing item whose
    anchor has a non-empty [href] gets as [Link] the base url with the
    [href] appended as it is.  A document whose next link has a
    non-empty [href] gets as next url [urljoin] of the base url and the
    [href]. *)
Theorem link_is_concatenated_next_is_joined
    (W : World) (self : ProductExtractor) (item a : node) (href : string)
    (soup next_page : node) (next_href base_url : string) (st : state) :
  find item "a" = Some a ->
  tag_get a "href" = PyStr href ->
  href <> "" ->
  find_class soup "a" "s-pagination-next" = Some next_page ->
  tag_get next_page "href" = PyStr next_href ->
  next_href <> "" ->
  (exists st',
     extract_field self item "link" st =
     (Ret (PyStr (self_base_url self ++ href)), st')) /\
  (exists st',
     pagination W (Some soup) base_url st =
     (Ret (PyStr (urljoin W base_url next_href)), st')).
Proof.
  intros Ha Hh Hne Hn Hnh Hnne. split.
  - destruct (extract_field_link self item st) as [evs Hrun].
    exists (add_events st evs). rewrite Hrun.
    unfold link_value. rewrite Ha, Hh.
    apply String.eqb_neq in Hne. now rewrite Hne.
  - eexists. now apply pagination_next with (next_page := next_page).
Qed.

Lemma link_is_concatenated_next_is_joined_witness :
  (exists st',
     extract_field {| self_soup := None; self_base_url := url |}
       Shop.item_abs "link" Shop.fresh =
     (Ret (PyStr "https://www.amazon.comhttps://www.amazon.co.uk/dp/9"), st')) /\
  (exists st',
     pagination (Shop.world Shop.always_503) (Some Shop.page_abs_next) url
       Shop.fresh =
     (Ret (PyStr "https://www.amazon.co.uk/s?k=widget&page=2"), st')).
Proof.
  apply (link_is_concatenated_next_is_joined
           (Shop.world Shop.always_503)
           {| self_soup := None; self_base_url := url |}
           Shop.item_abs Shop.anchor_abs "https://www.amazon.co.uk/dp/9"
           Shop.page_abs_next Shop.next_anchor_abs
           "https://www.amazon.co.uk/s?k=widget&page=2" url Shop.fresh).
  - reflexivity.
  - reflexivity.
  - discriminate.
  - reflexivity.
  - reflexivity.
  - discriminate.
Defined.

(** ** The markup parser *)

(** The [except] clause names [FeatureNotFound or TypeError], which is
    [FeatureNotFound]. *)
Lemma soup_maker_except_class :
  py_or class_truthy FeatureNotFound TypeError = FeatureNotFound.
Proof. reflexivity. Qed.

Lemma soup_maker_str W source st :
  lxml_installed W = true ->
  soup_maker W (PyStr source) st =
  (Ret (Some (Tag "[document]" [] (lxml_parse W source))),
   add_events st [EvLog Info "Soup created successfully"]).
Proof.
  intros H. unfold soup_maker, try_except, bind, BeautifulSoup.
  rewrite H. reflexivity.
Qed.

(** A missing parser is caught and turned into [None]. *)
Lemma soup_maker_feature_not_found W response st :
  lxml_installed W = false ->
  soup_maker W response st =
  (Ret None, add_events st [EvLog Error "Failed to create soup"]).
Proof.
  intros H. unfold soup_maker, try_except, bind, BeautifulSoup.
  rewrite H. reflexivity.
Qed.

(** Markup that is not a string is not: the [TypeError] leaves
    [soup_maker]. *)
Lemma soup_maker_none_raises W st :
  lxml_installed W = true ->
  soup_maker W PyNone st = (Raise TypeError, st).
Proof.
  intros H. unfold soup_maker, try_except, bind, BeautifulSoup.
  rewrite H. reflexivity.
Qed.

(** C3 (the code departs from it). [soup_maker None] does not return
    [None]: with lxml installed the [TypeError] of the parser passes the
    [except] clause and reaches the caller. *)
Theorem soup_maker_none_escapes :
  soup_maker (Shop.world Shop.always_503) PyNone Shop.fresh =
  (Raise TypeError, Shop.fresh).
Proof. apply soup_maker_none_raises. reflexivity. Qed.

(** ** The crawl controller *)

Lemma navigations_app t u : navigations (t ++ u) = navigations t ++ navigations u.
Proof.
  induction t as [|e t IH]; simpl; [reflexivity|].
  destruct e; simpl; now rewrite ?IH.
Qed.

Lemma extract_runs self st :
  exists evs, extract self st = (Ret (records_of self), add_events st evs).
Proof.
  unfold records_of. destruct (self_soup self) as [soup|] eqn:Hs.
  - exact (extract_result self soup st Hs).
  - unfold extract. rewrite Hs. simpl.
    eexists. unfold bind, log, emit, ret. rewrite emit_st_add. reflexivity.
Qed.

(** A failed navigation does not leave [load_and_scroll]: it is logged
    and the session keeps showing the page it showed before. *)
Lemma load_and_scroll_swallows W u e st :
  web W u = NavFails e ->
  isinstance e WebDriverException = true ->
  load_and_scroll W u st =
  (Ret tt,
   add_events st
     [EvLog Info "Navigating to"; EvSetPageLoadTimeout 15; EvGet u;
      EvLog Error "Failed to load"]).
Proof.
  intros Hw He.
  unfold load_and_scroll, try_except, bind, loader, bind, driver_get,
    set_page_load_timeout, log, emit.
  simpl. rewrite Hw.
  destruct e; try discriminate He; simpl;
    rewrite !emit_st_add, !add_events_add; reflexivity.
Qed.

(** So the search "result" after a failed navigation is the source of
    that earlier page. *)
Lemma scrape_search_results_stale W keyword e st :
  web W (get_search_url keyword) = NavFails e ->
  isinstance e WebDriverException = true ->
  exists evs,
    scrape_search_results W keyword st =
    (Ret (page_source st), add_events st evs).
Proof.
  intros Hw He.
  unfold scrape_search_results, try_except.
  unfold bind at 1. unfold log at 1, emit at 1. rewrite emit_st_add.
  unfold bind at 1.
  rewrite (load_and_scroll_swallows W _ e _ Hw He).
  unfold bind, log, emit, driver_page_source.
  rewrite !emit_st_add, !add_events_add. simpl.
  eexists. reflexivity.
Qed.

(** Every record the crawl loop returns was accumulated before or is a
    record of the soup the extractor was built with: what later pages
    contain is never extracted. *)
Lemma scrape_loop_only_first_page W ext fuel :
  forall max_pages soup page results st r,
  fst (scrape_loop W ext fuel max_pages soup page results st) = Ret r ->
  forall x, In x r -> In x results \/ In x (records_of ext).
Proof.
  induction fuel as [|fuel IH]; intros max_pages soup page results st r H x Hx.
  - simpl in H. injection H as <-. now left.
  - simpl scrape_loop in H.
    destruct (is_some soup && (page <? max_pages)%Z).
    2:{ simpl in H. injection H as <-. now left. }
    destruct (extract_runs ext st) as [e1 H1].
    unfold bind at 1 in H. rewrite H1 in H.
    unfold bind at 1 in H. unfold log at 1, emit at 1 in H.
    unfold bind at 1 in H.
    destruct (pagination W soup url _) as [[v|e] st3].
    2:{ discriminate H. }
    destruct (truthy v).
    2:{ simpl in H. injection H as <-. apply in_app_or in Hx. tauto. }
    change (negb true) with false in H. cbv iota in H.
    unfold bind at 1 in H.
    destruct (driver_get W (pystr v) st3) as [[[]|e] st4].
    2:{ discriminate H. }
    unfold bind at 1 in H. simpl sleep in H. unfold emit at 1 in H.
    unfold bind at 1 in H. unfold driver_page_source at 1 in H.
    unfold bind at 1 in H.
    destruct (soup_maker W _ _) as [[soup'|e] st6].
    2:{ discriminate H. }
    apply (IH _ _ _ _ _ _ H) in Hx.
    destruct Hx as [Hx|Hx]; [|now right].
    apply in_app_or in Hx. tauto.
Qed.

(** Whatever the page cap, a next link on the page just scraped is
    followed: with a cap of one page the loop still navigates to the
    second page before it stops. *)
Lemma scrape_loop_cap_one_navigates W ext soup next_page href results st :
  find_class soup "a" "s-pagination-next" = Some next_page ->
  tag_get next_page "href" = PyStr href ->
  href <> "" ->
  urljoin W url href <> "" ->
  In (urljoin W url href)
    (navigations (trace (snd (scrape_loop W ext 1 1 (Some soup) 0 results st)))).
Proof.
  intros Hf Hg Hne Hj.
  simpl scrape_loop.
  destruct (extract_runs ext st) as [e1 H1].
  unfold bind at 1. rewrite H1.
  unfold bind at 1. unfold log at 1, emit at 1.
  unfold bind at 1.
  rewrite (pagination_next W soup url next_page href _ Hf Hg Hne).
  apply String.eqb_neq in Hj. unfold truthy. rewrite Hj.
  change (negb (negb false)) with false. cbv iota.
  unfold bind at 1, driver_get. simpl pystr.
  destruct (web W (urljoin W url href)) as [src|e].
  - unfold bind at 1. unfold emit at 1.
    unfold bind at 1, driver_page_source at 1.
    unfold bind at 1.
    destruct (lxml_installed W) eqn:HL.
    + rewrite soup_maker_str by exact HL. simpl.
      rewrite !navigations_app. simpl.
      apply in_or_app. left. apply in_or_app. left.
      apply in_or_app. right. now left.
    + rewrite soup_maker_feature_not_found by exact HL. simpl.
      rewrite !navigations_app. simpl.
      apply in_or_app. left. apply in_or_app. left.
      apply in_or_app. right. now left.
  - simpl. rewrite !navigations_app. simpl.
    apply in_or_app. right. now left.
Qed.

(** The records [scrape_all_pages] returns are records of the page the
    first response parses to, however many pages were loaded. *)
Lemma scrape_all_pages_only_first_page W keyword max_pages st r :
  fst (scrape_all_pages W keyword max_pages st) = Ret r ->
  exists response,
    fst (scrape_search_results W keyword st) = Ret response /\
    forall x, In x r ->
      In x (flat_map (item_records url)
              (select_listitems (Tag "[document]" [] (lxml_parse W response)))).
Proof.
  unfold scrape_all_pages. intros H.
  unfold bind at 1 in H.
  destruct (scrape_search_results W keyword st) as [[response|e] st1];
    [|discriminate H].
  exists response. split; [reflexivity|].
  unfold bind at 1 in H.
  destruct (lxml_installed W) eqn:HL.
  - rewrite soup_maker_str in H by exact HL.
    intros x Hx.
    destruct (scrape_loop_only_first_page _ _ _ _ _ _ _ _ _ H x Hx) as [Hin|Hin].
    + destruct Hin.
    + exact Hin.
  - rewrite soup_maker_feature_not_found in H by exact HL.
    intros x Hx.
    destruct (scrape_loop_only_first_page _ _ _ _ _ _ _ _ _ H x Hx) as [Hin|Hin];
      destruct Hin.
Qed.

(** C1 (the code departs from it). With [max_pages = 1] and a next link
    on the first page, the crawl returns the records of one page and has
    nevertheless called [driver.get] a second time, for the second
    page. *)
Theorem scrape_all_pages_cap_one_loads_second_page :
  fst (scrape_all_pages (Shop.world Shop.always_503) "widget" 1 Shop.fresh) =
    Ret [Shop.widget] /\
  navigations
    (trace (snd (scrape_all_pages (Shop.world Shop.always_503) "widget" 1
                   Shop.fresh))) =
    ["https://www.amazon.com/s?k=widget";
     "https://www.amazon.com/s?k=widget&page=2"].
Proof. split; vm_compute; reflexivity. Qed.

(** C2 (the code departs from it). On a two-page result both pages are
    loaded, the second page lists the gadget, and the crawl returns the
    widget of the first page twice: the second iteration extracts from
    the snapshot of the first page again. *)
Theorem scrape_all_pages_repeats_first_page :
  fst (scrape_all_pages (Shop.world Shop.always_503) "widget" 2 Shop.fresh) =
    Ret [Shop.widget; Shop.widget] /\
  navigations
    (trace (snd (scrape_all_pages (Shop.world Shop.always_503) "widget" 2
                   Shop.fresh))) =
    ["https://www.amazon.com/s?k=widget";
     "https://www.amazon.com/s?k=widget&page=2"] /\
  flat_map (item_records url)
    (select_listitems (Tag "[document]" [] (Shop.parse Shop.page2_source))) =
    [Shop.gadget].
Proof. repeat split; vm_compute; reflexivity. Qed.

(** C4 (the code departs from it). The navigation for [gadget] times
    out in a session that still shows the first page for [widget]; the
    crawl is not aborted and returns the widget read from that page. *)
Theorem scrape_all_pages_after_timeout_reads_stale_page :
  web (Shop.world Shop.always_503) (get_search_url "gadget") =
    NavFails TimeoutException /\
  fst (scrape_all_pages (Shop.world Shop.always_503) "gadget" 1
         Shop.after_widget) =
    Ret [Shop.widget].
Proof. split; vm_compute; reflexivity. Qed.

(** The fuel of the crawl loop never decides: any amount of at least
    [max_pages - page] gives the same run. *)
Lemma scrape_loop_fuel W ext fuel :
  forall extra max_pages soup page results st,
  Z.to_nat (max_pages - page) <= fuel ->
  scrape_loop W ext (fuel + extra) max_pages soup page results st =
  scrape_loop W ext fuel max_pages soup page results st.
Proof.
  induction fuel as [|fuel IH]; intros extra max_pages soup page results st Hf.
  - assert (Hg : (page <? max_pages)%Z = false) by (apply Z.ltb_ge; lia).
    destruct extra as [|extra]; simpl; [reflexivity|].
    rewrite Hg, andb_false_r. reflexivity.
  - simpl. destruct (is_some soup && (page <? max_pages)%Z) eqn:Hg;
      [|reflexivity].
    apply andb_true_iff in Hg. destruct Hg as [_ Hg]. apply Z.ltb_lt in Hg.
    unfold bind.
    destruct (extract ext st) as [[d|e] s1]; [|reflexivity].
    destruct (log Info "Page scraped." s1) as [[u|e] s2]; [|reflexivity].
    destruct (pagination W soup url s2) as [[v|e] s3]; [|reflexivity].
    destruct (negb (truthy v)); [reflexivity|].
    destruct (driver_get W (pystr v) s3) as [[u'|e] s4]; [|reflexivity].
    destruct (emit (EvSleep (Uniform 2 4)) s4) as [[u''|e] s5]; [|reflexivity].
    destruct (driver_page_source s5) as [[src|e] s6]; [|reflexivity].
    destruct (soup_maker W (PyStr src) s6) as [[soup'|e] s7]; [|reflexivity].
    apply IH. lia.
Qed.

(** ** More on the retrying publisher *)

Lemma isinstance_exception e : isinstance e Exception = true.
Proof. destruct e; reflexivity. Qed.

Lemma only_logs_app a b : only_logs (a ++ b) = only_logs a && only_logs b.
Proof. unfold only_logs. apply forallb_app. Qed.

Lemma only_logs_wire evs : only_logs evs = true -> wire evs = [].
Proof.
  unfold only_logs, wire. induction evs as [|e evs IH]; simpl; [reflexivity|].
  intros H. apply andb_true_iff in H. destruct H as [He H].
  rewrite He. simpl. now apply IH.
Qed.

Lemma wire_filter (p : event -> bool) evs :
  (forall e, is_log e = true -> p e = false) ->
  filter p (wire evs) = filter p evs.
Proof.
  intros Hp. unfold wire. induction evs as [|e evs IH]; simpl; [reflexivity|].
  destruct (is_log e) eqn:He; simpl.
  - now rewrite (Hp e He).
  - destruct (p e); now rewrite IH.
Qed.

Section PublisherEffects.

Variable W : World.
Variables (url : string) (data : list record) (timeout : Z).

(** One attempt sends one request and logs; nothing else. *)
Lemma try_post_effects attempt st :
  exists r logs,
    try_post W url data timeout attempt st =
    (r, add_events st (EvPost url data timeout :: logs)) /\
    only_logs logs = true.
Proof.
  unfold try_post, try_except, bind, requests_post.
  destruct (endpoint W (S (count_posts (trace st)))) as [code body|e]; simpl.
  - destruct (Z_in code [200; 201]%Z) eqn:Hc; simpl in Hc; rewrite Hc;
      unfold log, emit, ret; rewrite !emit_st_add, add_events_add;
      eexists; eexists; split; reflexivity.
  - destruct e; simpl; unfold log, emit, ret, bind;
      rewrite ?emit_st_add, ?add_events_add;
      eexists; eexists; split; try reflexivity.
Qed.

(** Whatever the endpoint does, the loop sends at most one request per
    attempt, at least one when there is an attempt, writes no file and
    leaves the browser alone. *)
Lemma retry_loop_effects backoff attempts :
  forall delay st,
  exists evs,
    snd (retry_loop W url data timeout backoff attempts delay st) =
    add_events st evs /\
    count_posts evs <= length attempts /\
    (attempts <> [] -> 1 <= count_posts evs) /\
    filter is_write evs = [] /\
    navigations evs = [].
Proof.
  induction attempts as [|a rest IH]; intros delay st.
  - simpl. eexists. unfold bind, log, emit, ret. rewrite emit_st_add.
    split; [reflexivity|]. repeat split; try reflexivity.
    + intros H. now contradiction H.
  - destruct (try_post_effects a st) as [r [logs [Hstep Hlogs]]].
    assert (Hw : filter is_write logs = []).
    { rewrite <- (wire_filter is_write) by (intros [] ?; (discriminate || reflexivity)).
      now rewrite (only_logs_wire _ Hlogs). }
    assert (Hp : count_posts logs = 0).
    { unfold count_posts.
      rewrite <- (wire_filter is_post) by (intros [] ?; (discriminate || reflexivity)).
      now rewrite (only_logs_wire _ Hlogs). }
    assert (Hn : navigations logs = []).
    { clear -Hlogs. unfold only_logs in Hlogs.
      induction logs as [|e l IHl]; [reflexivity|].
      simpl in Hlogs. apply andb_true_iff in Hlogs. destruct Hlogs as [He Hl].
      destruct e; try discriminate He. simpl. now apply IHl. }
    simpl retry_loop. unfold bind at 1. rewrite Hstep.
    destruct r as [[|]|e].
    + simpl. eexists. split; [reflexivity|].
      unfold count_posts in *. simpl. rewrite Hp, Hw, Hn.
      repeat split; try reflexivity; lia.
    + unfold bind at 1. fold (next_delay backoff delay).
      unfold sleep. destruct (next_delay backoff delay <? 0)%Z.
      * simpl. eexists. split; [reflexivity|].
        unfold count_posts in *. simpl. rewrite Hp, Hw, Hn.
        repeat split; try reflexivity; lia.
      * unfold emit. rewrite emit_st_add, add_events_add.
        match goal with
        | |- context [retry_loop W url data timeout backoff rest ?d ?s] =>
            destruct (IH d s) as [evs [Hrun [Hle [_ [Hwr Hnav]]]]]
        end.
        rewrite Hrun, add_events_add. eexists. split; [reflexivity|].
        rewrite !count_posts_app, !filter_app, !navigations_app.
        simpl. rewrite Hwr, Hnav, Hw, Hn, !app_nil_r.
        fold (count_posts logs). rewrite Hp.
        change (count_posts [EvSleep (Seconds (next_delay backoff delay))])
          with 0.
        repeat split; try reflexivity; lia.
    + simpl. eexists. split; [reflexivity|].
      unfold count_posts in *. simpl. rewrite Hp, Hw, Hn.
      repeat split; try reflexivity; lia.
Qed.

End PublisherEffects.

Lemma range_cons lo hi : (lo < hi)%Z -> range lo hi = lo :: range (lo + 1) hi.
Proof.
  intros H. unfold range.
  replace (Z.to_nat (hi - lo)) with (S (Z.to_nat (hi - (lo + 1)))) by lia.
  simpl. f_equal; [lia|].
  rewrite <- seq_shift, map_map. apply map_ext. intros i. lia.
Qed.

Lemma range_empty lo hi : (hi <= lo)%Z -> range lo hi = [].
Proof.
  intros H. unfold range. replace (Z.to_nat (hi - lo)) with 0 by lia. reflexivity.
Qed.

Lemma sleeps_failed_rounds_flat url data timeout n delay :
  sleeps (failed_rounds url data timeout false n delay) =
  repeat (Seconds delay) n.
Proof.
  induction n as [|n IH]; simpl; [reflexivity|]. now rewrite IH.
Qed.

(** X1. Whatever the endpoint does (answers, request errors, other
    exceptions), one call of [post_with_retry] sends at most
    [max_retries] requests, writes no file and does not touch the
    browser. *)
Theorem post_with_retry_request_bound
    (W : World) (url : string) (data : list record)
    (max_retries delay timeout : Z) (backoff : bool) (st : state) :
  exists evs,
    snd (post_with_retry W url data max_retries delay timeout backoff st) =
    add_events st evs /\
    count_posts evs <= Z.to_nat max_retries /\
    filter is_write evs = [] /\
    navigations evs = [].
Proof.
  unfold post_with_retry.
  destruct (retry_loop_effects W url data timeout backoff
              (range 1 (max_retries + 1)) delay st)
    as [evs [Hrun [Hle [_ [Hw Hn]]]]].
  exists evs. rewrite length_range in Hle.
  repeat split; try assumption. lia.
Qed.

(** X2. With [max_retries <= 0] nothing is sent and nothing is waited
    for: the call logs the final error and returns [False]. *)
Theorem post_with_retry_no_attempts
    (W : World) (url : string) (data : list record)
    (max_retries delay timeout : Z) (backoff : bool) (st : state) :
  (max_retries <= 0)%Z ->
  post_with_retry W url data max_retries delay timeout backoff st =
  (Ret false,
   add_events st [EvLog Error "All retry attempts for API POST failed."]).
Proof.
  intros H. unfold post_with_retry. rewrite range_empty by lia. reflexivity.
Qed.

Lemma post_with_retry_no_attempts_witness :
  post_with_retry (Shop.world Outlet.accepting)
    "http://127.0.0.1:5000/api/products/" [Shop.widget] 0 2 10 false
    Shop.fresh =
  (Ret false,
   add_events Shop.fresh
     [EvLog Error "All retry attempts for API POST failed."]).
Proof.
  apply (post_with_retry_no_attempts (Shop.world Outlet.accepting)). lia.
Defined.

(** X3. A negative [delay] is not checked: when the first request fails
    the wait raises [ValueError], which leaves [post_with_retry] after
    that single request. *)
Theorem post_with_retry_negative_delay_raises
    (W : World) (url : string) (data : list record)
    (max_retries delay timeout : Z) (backoff : bool) (st : state) :
  (1 <= max_retries)%Z ->
  (delay < 0)%Z ->
  attempt_fails (endpoint W (S (count_posts (trace st)))) = true ->
  exists msg,
    post_with_retry W url data max_retries delay timeout backoff st =
    (Raise ValueError,
     add_events st [EvPost url data timeout; EvLog Warning msg]).
Proof.
  intros Hm Hd Hf. unfold post_with_retry.
  rewrite range_cons by lia.
  destruct (try_post_fails W url data timeout 1%Z st Hf) as [msg Hstep].
  exists msg. simpl retry_loop. unfold bind at 1. rewrite Hstep.
  unfold bind at 1. unfold sleep.
  assert (Hn : ((if backoff then delay * 2 else delay) <? 0)%Z = true).
  { apply Z.ltb_lt. destruct backoff; lia. }
  rewrite Hn. reflexivity.
Qed.

Lemma post_with_retry_negative_delay_raises_witness :
  exists msg,
    post_with_retry (Shop.world Shop.always_503)
      "http://127.0.0.1:5000/api/products/" [Shop.widget] 3 (-1) 10 false
      Shop.fresh =
    (Raise ValueError,
     add_events Shop.fresh
       [EvPost "http://127.0.0.1:5000/api/products/" [Shop.widget] 10;
        EvLog Warning msg]).
Proof.
  apply (post_with_retry_negative_delay_raises (Shop.world Shop.always_503)).
  - lia.
  - lia.
  - reflexivity.
Defined.

(** X4. Without back-off every wait lasts the configured delay: when all
    [max_retries] attempts fail, [max_retries] waits of [delay] seconds
    are slept, the last one after the final attempt. *)
Theorem post_with_retry_constant_waits
    (W : World) (url : string) (data : list record)
    (max_retries delay timeout : Z) (st : state) :
  (0 <= delay)%Z ->
  (forall i, i < Z.to_nat max_retries ->
     attempt_fails (endpoint W (S (count_posts (trace st)) + i)) = true) ->
  exists st',
    post_with_retry W url data max_retries delay timeout false st =
    (Ret false, st') /\
    sleeps (trace st') =
    sleeps (trace st) ++ repeat (Seconds delay) (Z.to_nat max_retries) /\
    count_posts (trace st') = count_posts (trace st) + Z.to_nat max_retries.
Proof.
  intros Hd Hfail.
  assert (Hlen : length (range 1 (max_retries + 1)) = Z.to_nat max_retries).
  { rewrite length_range. f_equal. lia. }
  destruct (retry_loop_all_fail W url data timeout false
              (range 1 (max_retries + 1)) delay st)
    as [st' [Hrun Hw]].
  { intros i Hi. apply Hfail. now rewrite <- Hlen. }
  { exact Hd. }
  rewrite Hlen in Hw. exists st'. split; [exact Hrun|]. split.
  - rewrite <- (sleeps_wire (trace st')), Hw, sleeps_app, sleeps_wire.
    now rewrite sleeps_failed_rounds_flat.
  - rewrite <- (count_posts_wire (trace st')), Hw, count_posts_app.
    now rewrite count_posts_wire, count_posts_failed_rounds.
Qed.

Lemma post_with_retry_constant_waits_witness :
  exists st',
    post_with_retry (Shop.world Shop.always_503)
      "http://127.0.0.1:5000/api/products/" [Shop.widget] 3 2 10 false
      Shop.fresh = (Ret false, st') /\
    sleeps (trace st') = [Seconds 2; Seconds 2; Seconds 2] /\
    count_posts (trace st') = 3.
Proof.
  apply (post_with_retry_constant_waits (Shop.world Shop.always_503)
           "http://127.0.0.1:5000/api/products/" [Shop.widget] 3 2 10
           Shop.fresh).
  - lia.
  - intros i Hi. reflexivity.
Defined.

(** X5. Only request exceptions are retried: an exception of another
    class raised by the first request leaves [post_with_retry] at once,
    with no wait and no second request. *)
Theorem post_with_retry_other_exception_escapes
    (W : World) (url : string) (data : list record)
    (max_retries delay timeout : Z) (backoff : bool) (st : state) (e : exn) :
  (1 <= max_retries)%Z ->
  endpoint W (S (count_posts (trace st))) = PostRaises e ->
  isinstance e RequestException = false ->
  post_with_retry W url data max_retries delay timeout backoff st =
  (Raise e, add_events st [EvPost url data timeout]).
Proof.
  intros Hm He Hi. unfold post_with_retry.
  rewrite range_cons by lia.
  simpl retry_loop. unfold bind at 1.
  unfold try_post, try_except, bind, requests_post. rewrite He.
  destruct e; try discriminate Hi; reflexivity.
Qed.

Lemma post_with_retry_other_exception_escapes_witness :
  post_with_retry (Shop.world Outlet.crashing)
    "http://127.0.0.1:5000/api/products/" [Shop.widget] 3 2 10 false
    Shop.fresh =
  (Raise TypeError,
   add_events Shop.fresh
     [EvPost "http://127.0.0.1:5000/api/products/" [Shop.widget] 10]).
Proof.
  apply (post_with_retry_other_exception_escapes (Shop.world Outlet.crashing)).
  - lia.
  - reflexivity.
  - reflexivity.
Defined.

(** ** More on the sink dispatcher *)

Lemma only_logs_no_write logs : only_logs logs = true -> filter is_write logs = [].
Proof.
  intros H. rewrite <- (wire_filter is_write)
    by (intros [] ?; (discriminate || reflexivity)).
  now rewrite (only_logs_wire _ H).
Qed.

Lemma only_logs_no_post logs : only_logs logs = true -> filter is_post logs = [].
Proof.
  intros H. rewrite <- (wire_filter is_post)
    by (intros [] ?; (discriminate || reflexivity)).
  now rewrite (only_logs_wire _ H).
Qed.

(** Publishing from the dispatcher never raises: whatever leaves
    [post_with_retry] is caught and logged. *)
Lemma post_data_to_api_effects W u items st :
  exists evs,
    post_data_to_api W u items st = (Ret tt, add_events st evs) /\
    1 <= count_posts evs <= 3 /\
    filter is_write evs = [] /\
    navigations evs = [].
Proof.
  unfold post_data_to_api, post_with_retry, try_except.
  destruct (retry_loop_effects W u items 10%Z false (range 1 (3 + 1)) 2%Z st)
    as [evs [Hrun [Hle [Hge [Hw Hn]]]]].
  specialize (Hge ltac:(discriminate)).
  change (length (range 1 (3 + 1))) with 3 in Hle.
  unfold bind at 1.
  destruct (retry_loop W u items 10%Z false (range 1 (3 + 1)) 2%Z st)
    as [r s1].
  simpl in Hrun. subst s1.
  assert (Hfin : forall lvl msg,
            count_posts (evs ++ [EvLog lvl msg]) = count_posts evs /\
            filter is_write (evs ++ [EvLog lvl msg]) = [] /\
            navigations (evs ++ [EvLog lvl msg]) = []).
  { intros lvl msg. rewrite count_posts_app, filter_app, navigations_app.
    rewrite Hw, Hn. simpl. unfold count_posts at 2. simpl.
    repeat split. lia. }
  destruct r as [[|]|e].
  - unfold log, emit. rewrite emit_st_add, add_events_add.
    eexists. split; [reflexivity|].
    destruct (Hfin Info "Successfully posted data to API") as [H1 [H2 H3]].
    rewrite H1. repeat split; try assumption; lia.
  - unfold log, emit. rewrite emit_st_add, add_events_add.
    eexists. split; [reflexivity|].
    destruct (Hfin Error "Failed to post data to API") as [H1 [H2 H3]].
    rewrite H1. repeat split; try assumption; lia.
  - simpl select_handler. rewrite isinstance_exception. simpl.
    unfold log, emit. rewrite emit_st_add, add_events_add.
    eexists. split; [reflexivity|].
    destruct (Hfin Error "Exception while POSTing to API") as [H1 [H2 H3]].
    rewrite H1. repeat split; try assumption; lia.
Qed.

Lemma filter_write_write_for f items t :
  filter is_write (write_for f items t) = write_for f items t /\
  filter is_post (write_for f items t) = [].
Proof.
  unfold write_for.
  destruct (file_ext_of f =? "csv")%string; [split; reflexivity|].
  destruct (file_ext_of f =? "json")%string; [split; reflexivity|].
  destruct (str_in (file_ext_of f) ["xlsx"; "xls"]); [split; reflexivity|].
  destruct (file_ext_of f =? "sqlite")%string; split; reflexivity.
Qed.

(** Writing from the dispatcher: the write the extension calls for, and
    log lines. *)
Lemma save_data_to_file_effects f items t st :
  items <> [] ->
  exists logs,
    save_data_to_file f items t st =
    (Ret tt, add_events st (write_for f items t ++ logs)) /\
    only_logs logs = true.
Proof.
  intros Hne. destruct items as [|item rest]; [now contradiction Hne|].
  unfold save_data_to_file, write_for, try_except.
  fold (file_ext_of f).
  destruct (file_ext_of f =? "csv")%string.
  { eexists. split; [|shelve].
    unfold save_to_csv, try_except, bind, log, emit, ret.
    rewrite !emit_st_add, add_events_add. reflexivity. }
  destruct (file_ext_of f =? "json")%string.
  { eexists. split; [|shelve].
    unfold save_to_json, try_except, bind, log, emit, ret.
    rewrite !emit_st_add, add_events_add. reflexivity. }
  destruct (str_in (file_ext_of f) ["xlsx"; "xls"]).
  { eexists. split; [|shelve].
    unfold save_to_excel, try_except, bind, log, emit, ret.
    rewrite !emit_st_add, add_events_add. reflexivity. }
  destruct (file_ext_of f =? "sqlite")%string.
  { eexists. split; [|shelve].
    unfold save_to_sqlite, try_except, bind, log, emit, ret.
    rewrite !emit_st_add, add_events_add. reflexivity. }
  eexists. split; [|shelve].
  unfold log, emit. rewrite emit_st_add. reflexivity.
  Unshelve. all: reflexivity.
Qed.

(** X6. The dispatcher never raises: for every batch, file name,
    endpoint and table name, and whatever the endpoint does, [save_as]
    returns normally. *)
Theorem save_as_never_raises
    (W : World) (items : list record) (file_name post_api_url : option string)
    (table_name : string) (st : state) :
  fst (save_as W items file_name post_api_url table_name st) = Ret tt.
Proof.
  unfold save_as. destruct items as [|item rest]; [reflexivity|].
  destruct (opt_truthy post_api_url).
  - destruct (post_data_to_api_effects W
                (match post_api_url with Some u => u | None => "" end)
                (item :: rest) st) as [evs [Hrun _]].
    now rewrite Hrun.
  - destruct (opt_truthy file_name); [|reflexivity].
    destruct (save_data_to_file_effects
                (match file_name with Some f => f | None => "" end)
                (item :: rest) table_name st ltac:(discriminate))
      as [logs [Hrun _]].
    now rewrite Hrun.
Qed.

(** X7. With records and an endpoint configured, [save_as] publishes
    and never writes a file, whatever file name is configured next to
    the endpoint: between one and three requests are sent and the trace
    gains no write. *)
Theorem save_as_endpoint_excludes_file
    (W : World) (items : list record) (file_name : option string)
    (post_api_url table_name : string) (st : state) :
  items <> [] ->
  post_api_url <> "" ->
  exists evs,
    save_as W items file_name (Some post_api_url) table_name st =
    (Ret tt, add_events st evs) /\
    1 <= count_posts evs <= 3 /\
    filter is_write evs = [].
Proof.
  intros Hi Hu. unfold save_as.
  destruct items as [|item rest]; [now contradiction Hi|].
  apply String.eqb_neq in Hu. unfold opt_truthy. rewrite Hu.
  change (negb false) with true. cbv iota.
  destruct (post_data_to_api_effects W post_api_url (item :: rest) st)
    as [evs [Hrun [Hc [Hw _]]]].
  exists evs. now rewrite Hrun.
Qed.

Lemma save_as_endpoint_excludes_file_witness :
  exists evs,
    save_as (Shop.world Outlet.accepting) [Shop.widget] (Some "products.csv")
      (Some "http://127.0.0.1:5000/api/products/") "products" Shop.fresh =
    (Ret tt, add_events Shop.fresh evs) /\
    1 <= count_posts evs <= 3 /\
    filter is_write evs = [].
Proof.
  apply (save_as_endpoint_excludes_file (Shop.world Outlet.accepting)).
  - discriminate.
  - discriminate.
Defined.

(** X8. With records, a file name and no endpoint, [save_as] sends
    nothing and writes at most once: all the records, under the given
    name, in the format named by the lower-cased extension ([csv],
    [json], [xlsx] or [xls], [sqlite], the last with the table name);
    any other extension writes nothing and is only logged. *)
Theorem save_as_file_writes_by_extension
    (W : World) (items : list record) (file_name : string)
    (post_api_url : option string) (table_name : string) (st : state) :
  items <> [] ->
  file_name <> "" ->
  opt_truthy post_api_url = false ->
  exists evs,
    save_as W items (Some file_name) post_api_url table_name st =
    (Ret tt, add_events st evs) /\
    filter is_write evs = write_for file_name items table_name /\
    filter is_post evs = [].
Proof.
  intros Hi Hf Hu. unfold save_as.
  destruct items as [|item rest]; [now contradiction Hi|].
  rewrite Hu. apply String.eqb_neq in Hf. unfold opt_truthy. rewrite Hf.
  change (negb false) with true. cbv iota.
  destruct (save_data_to_file_effects file_name (item :: rest) table_name st
              ltac:(discriminate)) as [logs [Hrun Hlogs]].
  eexists. split; [exact Hrun|].
  rewrite !filter_app, (only_logs_no_write _ Hlogs), (only_logs_no_post _ Hlogs).
  destruct (filter_write_write_for file_name (item :: rest) table_name)
    as [H1 H2].
  rewrite H1, H2, !app_nil_r. split; reflexivity.
Qed.

Lemma save_as_file_writes_by_extension_witness :
  exists evs,
    save_as (Shop.world Shop.always_503) [Shop.widget; Shop.gadget]
      (Some "out/Products.SQLite") (Some "") "offers" Shop.fresh =
    (Ret tt, add_events Shop.fresh evs) /\
    filter is_write evs =
    [EvWrite Sqlite "out/Products.SQLite" [Shop.widget; Shop.gadget]
       (Some "offers")] /\
    filter is_post evs = [].
Proof.
  apply (save_as_file_writes_by_extension (Shop.world Shop.always_503)).
  - discriminate.
  - discriminate.
  - reflexivity.
Defined.

(** ** The format checker and the dispatcher's extension *)

Lemma list_of_lower s :
  list_ascii_of_string (lower s) = map lower_char (list_ascii_of_string s).
Proof. unfold lower. apply list_ascii_of_string_of_list_ascii. Qed.

Lemma rfind_from_spec c l :
  forall i found,
  rfind_from c l i found = found \/
  ((i <= rfind_from c l i found)%Z /\
   exists pre rest,
     l = pre ++ c :: rest /\
     length pre = Z.to_nat (rfind_from c l i found - i)).
Proof.
  induction l as [|x t IH]; intros i found; simpl; [now left|].
  destruct (IH (i + 1)%Z (if Ascii.eqb x c then i else found)) as [E|[Hle [pre [rest [Hl Hlen]]]]].
  - rewrite E. destruct (Ascii.eqb_spec x c) as [->|Hne]; [|now left].
    right. split; [lia|]. exists [], t. split; [reflexivity|].
    simpl. lia.
  - right. split; [lia|]. exists (x :: pre), rest. split.
    + simpl. now rewrite <- Hl.
    + simpl. rewrite Hlen. lia.
Qed.

(** The extension [os.path.splitext] finds is empty or the rest of the
    name from one of its dots on. *)
Lemma splitext_shape p :
  splitext_ext p = "" \/
  exists pre rest,
    list_ascii_of_string p = pre ++ "."%char :: rest /\
    splitext_ext p = String "."%char (string_of_list_ascii rest).
Proof.
  unfold splitext_ext.
  set (l := list_ascii_of_string p).
  destruct (rfind "/"%char l <? rfind "."%char l)%Z eqn:Hlt; [|now left].
  apply Z.ltb_lt in Hlt.
  match goal with |- context [if ?b then _ else _] => destruct b end;
    [|now left].
  right.
  assert (Hsep : (-1 <= rfind "/"%char l)%Z).
  { unfold rfind. destruct (rfind_from_spec "/"%char l 0%Z (-1)%Z) as [E|[H _]]; lia. }
  unfold rfind in *.
  destruct (rfind_from_spec "."%char l 0%Z (-1)%Z) as [E|[_ [pre [rest [Hl Hlen]]]]];
    [lia|].
  exists pre, rest. split; [exact Hl|].
  rewrite Z.sub_0_r in Hlen. rewrite <- Hlen.
  rewrite Hl at 1. rewrite skipn_app, Nat.sub_diag, skipn_all. reflexivity.
Qed.

Lemma starts_with_app p l : starts_with p (p ++ l) = true.
Proof.
  induction p as [|a p IH]; simpl; [reflexivity|].
  now rewrite Ascii.eqb_refl, IH.
Qed.

(** When the dispatcher reads the extension [ext] off a name, the
    lower-cased name ends with a dot and [ext]. *)
Lemma file_ext_of_suffix name ext :
  file_ext_of name = ext ->
  ext <> "" ->
  exists pre,
    list_ascii_of_string (lower name) =
    pre ++ "."%char :: list_ascii_of_string ext.
Proof.
  intros He Hne. unfold file_ext_of in He.
  destruct (splitext_shape name) as [E|[pre [rest [Hl E]]]].
  - rewrite E in He. simpl in He. subst ext. now contradiction Hne.
  - rewrite E in He. simpl tail_str in He.
    exists (map lower_char pre).
    rewrite list_of_lower, Hl, map_app. simpl. f_equal. f_equal.
    rewrite <- He, list_of_lower.
    now rewrite list_ascii_of_string_of_list_ascii.
Qed.

(** X9. The format checker agrees with the dispatcher on the four
    formats it knows: when [save_data_to_file] reads the extension
    [csv], [json], [xlsx] or [sqlite] off a file name, in any letter
    case, [file_format_checker] returns that format for the name. *)
Theorem file_format_checker_agrees_with_dispatcher
    (file_name fmt : string) :
  file_ext_of file_name = fmt ->
  In fmt ["csv"; "json"; "xlsx"; "sqlite"] ->
  file_format_checker file_name = Ret fmt.
Proof.
  intros He Hin.
  assert (Hne : fmt <> "").
  { intros E. rewrite E in Hin. simpl in Hin. intuition discriminate. }
  destruct (file_ext_of_suffix file_name fmt He Hne) as [pre Hl].
  unfold file_format_checker. simpl first_format. unfold endswith.
  rewrite Hl, rev_app_distr.
  simpl in Hin.
  destruct Hin as [<-|[<-|[<-|[<-|[]]]]]; reflexivity.
Qed.

Lemma file_format_checker_agrees_with_dispatcher_witness :
  file_format_checker "out/Products.SQLite" = Ret "sqlite".
Proof.
  apply (file_format_checker_agrees_with_dispatcher "out/Products.SQLite").
  - reflexivity.
  - simpl. tauto.
Defined.

(** X10. The two disagree on [xls]: a name whose extension the
    dispatcher reads as [xls], and writes as a spreadsheet, is rejected
    by [file_format_checker] with a [ValueError]. *)
Theorem file_format_checker_rejects_xls
    (file_name : string) (items : list record) (table_name : string) :
  file_ext_of file_name = "xls" ->
  file_format_checker file_name = Raise ValueError /\
  write_for file_name items table_name = [EvWrite Excel file_name items None].
Proof.
  intros He. split.
  - destruct (file_ext_of_suffix file_name "xls" He ltac:(discriminate))
      as [pre Hl].
    unfold file_format_checker. simpl first_format. unfold endswith.
    rewrite Hl, rev_app_distr. reflexivity.
  - unfold write_for. rewrite He. reflexivity.
Qed.

Lemma file_format_checker_rejects_xls_witness :
  file_format_checker "report.XLS" = Raise ValueError /\
  write_for "report.XLS" [Shop.widget] "products" =
  [EvWrite Excel "report.XLS" [Shop.widget] None].
Proof.
  apply (file_format_checker_rejects_xls "report.XLS"). reflexivity.
Defined.

Lemma lower_char_idem c : lower_char (lower_char c) = lower_char c.
Proof.
  destruct c as [[] [] [] [] [] [] [] []]; reflexivity.
Qed.

(** X11. [file_format_checker] does not look at letter case: a name and
    its lower-cased form get the same answer. *)
Theorem file_format_checker_ignores_case (file_name : string) :
  file_format_checker (lower file_name) = file_format_checker file_name.
Proof.
  unfold file_format_checker. f_equal.
  unfold lower at 1. rewrite list_of_lower, map_map.
  unfold lower. f_equal. apply map_ext. apply lower_char_idem.
Qed.

(** ** The content stabilizer *)

Lemma sleep_ok d st :
  sleepable d = true -> sleep d st = (Ret tt, add_events st [EvSleep d]).
Proof.
  intros H. destruct d as [n|n|lo hi]; simpl in *; try reflexivity;
    apply Z.leb_le in H;
    (destruct (n <? 0)%Z eqn:E; [apply Z.ltb_lt in E; lia|reflexivity]).
Qed.

Lemma after_scrolls_after st k evs k' evs' :
  after_scrolls (after_scrolls st k evs) k' evs' =
  after_scrolls st (k + k') (evs ++ evs').
Proof.
  unfold after_scrolls. simpl. f_equal; [lia|]. now rewrite app_assoc.
Qed.

Lemma height_after_after W st k evs j :
  height_after W (after_scrolls st k evs) j = height_after W st (k + j).
Proof. unfold height_after, after_scrolls. simpl. f_equal. lia. Qed.

Lemma count_scrolls_app t u :
  count_scrolls (t ++ u) = count_scrolls t + count_scrolls u.
Proof.
  induction t as [|e t IH]; simpl; [reflexivity|].
  destruct e; simpl; now rewrite ?IH.
Qed.

Section Stabilizer.

Variable W : World.
Variable scroll_pause : duration.
Hypothesis pause_ok : sleepable scroll_pause = true.

(** One pass through the body of the scroll loop, up to the
    comparison of the heights. *)
Lemma scroll_once st :
  (scroll_to_bottom ;; sleep scroll_pause ;; get_scroll_height W) st =
  (Ret (height_after W st 1),
   after_scrolls st 1 [EvScrollToBottom; EvSleep scroll_pause]).
Proof.
  unfold bind, scroll_to_bottom. rewrite (sleep_ok _ _ pause_ok).
  unfold get_scroll_height, height_after, add_events, after_scrolls. simpl.
  rewrite <- app_assoc. simpl. f_equal; [f_equal; f_equal; lia|].
  f_equal. lia.
Qed.

(** The loop scrolls at least once when there is a budget, never more
    often than the budget, and leaves the page where it is. *)
Lemma scroll_loop_total indices :
  forall last i st,
  exists i' evs,
    scroll_loop W scroll_pause indices last i st =
    (Ret i', after_scrolls st (count_scrolls evs) evs) /\
    count_scrolls evs <= length indices /\
    (indices <> [] -> 1 <= count_scrolls evs /\ i' <> None) /\
    navigations evs = [].
Proof.
  induction indices as [|j rest IH]; intros last i st.
  - exists i, []. simpl. unfold ret, after_scrolls. simpl.
    rewrite Nat.add_0_r, app_nil_r. destruct st; simpl.
    repeat split; try reflexivity; try lia; now contradiction H.
  - simpl scroll_loop.
    pose proof (scroll_once st) as Hs. unfold bind in Hs.
    unfold bind at 1 2 3.
    destruct (scroll_to_bottom st) as [[[]|e0] s1]; try discriminate Hs.
    destruct (sleep scroll_pause s1) as [[[]|e1] s2]; try discriminate Hs.
    rewrite Hs. unfold bind at 1. unfold log at 1, emit at 1.
    destruct (height_after W st 1 =? last)%Z.
    + unfold bind, log, emit, ret.
      exists (Some j),
        [EvScrollToBottom; EvSleep scroll_pause;
         EvLog Debug "Scroll: height changed";
         EvLog Info "No new content loaded - stopping scroll"].
      split.
      * unfold emit_st, after_scrolls. simpl.
        rewrite <- !app_assoc. reflexivity.
      * simpl. repeat split; try lia; discriminate.
    + match goal with
      | |- context [scroll_loop W scroll_pause rest ?l ?o ?s] =>
          destruct (IH l o s) as [i' [evs [Hrun [Hle [_ Hnav]]]]];
          assert (Hi' : i' <> None);
          [ destruct rest as [|j' rest'];
            [ simpl in Hrun; injection Hrun as <- _; discriminate
            | destruct (IH l o s) as [i2 [evs2 [Hrun2 [_ [Hne2 _]]]]];
              rewrite Hrun in Hrun2; injection Hrun2 as <- _;
              apply Hne2; discriminate ]
          | ]
      end.
      rewrite Hrun.
      exists i',
        ([EvScrollToBottom; EvSleep scroll_pause;
          EvLog Debug "Scroll: height changed"] ++ evs).
      split.
      * rewrite emit_st_add. unfold add_events, after_scrolls. simpl.
        rewrite <- !app_assoc. simpl. f_equal. f_equal. lia.
      * rewrite count_scrolls_app, navigations_app, Hnav. simpl.
        repeat split; try lia; assumption.
Qed.

End Stabilizer.

Section StabilizerRuns.

Variable W : World.
Variable scroll_pause : duration.
Hypothesis pause_ok : sleepable scroll_pause = true.

(** The loop stops with the first scroll that leaves the height as it
    was. *)
Lemma scroll_loop_stops n :
  forall indices i st,
  n < length indices ->
  (forall j, j < n -> height_after W st (S j) <> height_after W st j) ->
  height_after W st (S n) = height_after W st n ->
  exists i' evs,
    scroll_loop W scroll_pause indices (height_after W st 0) i st =
    (Ret (Some i'), after_scrolls st (S n) evs) /\
    count_scrolls evs = S n /\
    navigations evs = [].
Proof.
  induction n as [|n IH]; intros indices i st Hlen Hgrow Hstable;
    (destruct indices as [|j rest]; [simpl in Hlen; lia|]);
    simpl scroll_loop;
    pose proof (scroll_once W scroll_pause pause_ok st) as Hs;
    unfold bind in Hs; unfold bind at 1 2 3;
    (destruct (scroll_to_bottom st) as [[[]|e0] s1]; try discriminate Hs);
    (destruct (sleep scroll_pause s1) as [[[]|e1] s2]; try discriminate Hs);
    rewrite Hs; unfold bind at 1; unfold log at 1, emit at 1.
  - rewrite Hstable, Z.eqb_refl.
    unfold bind, log, emit, ret.
    exists j,
      [EvScrollToBottom; EvSleep scroll_pause;
       EvLog Debug "Scroll: height changed";
       EvLog Info "No new content loaded - stopping scroll"].
    split; [|split; reflexivity].
    unfold emit_st, after_scrolls. simpl. rewrite <- !app_assoc. reflexivity.
  - assert (Hne : (height_after W st 1 =? height_after W st 0)%Z = false).
    { apply Z.eqb_neq. apply Hgrow. lia. }
    rewrite Hne. rewrite emit_st_add.
    set (s3 := add_events _ _).
    assert (Es3 : s3 = after_scrolls st 1
                         [EvScrollToBottom; EvSleep scroll_pause;
                          EvLog Debug "Scroll: height changed"]).
    { unfold s3, add_events, after_scrolls. simpl. now rewrite <- app_assoc. }
    assert (Eh : height_after W st 1 = height_after W s3 0).
    { rewrite Es3, height_after_after. reflexivity. }
    rewrite Eh.
    destruct (IH rest (Some j) s3) as [i' [evs [Hrun [Hc Hn]]]].
    + simpl in Hlen. lia.
    + intros k Hk. rewrite Es3, !height_after_after. simpl. apply Hgrow. lia.
    + rewrite Es3, !height_after_after. simpl. exact Hstable.
    + rewrite Hrun. exists i'. eexists. split.
      * rewrite Es3, after_scrolls_after. reflexivity.
      * rewrite count_scrolls_app, navigations_app, Hc, Hn. split; reflexivity.
Qed.

(** On a page that grows with every scroll the whole budget is used. *)
Lemma scroll_loop_exhausts indices :
  forall i st,
  (forall j, j < length indices ->
     height_after W st (S j) <> height_after W st j) ->
  exists i' evs,
    scroll_loop W scroll_pause indices (height_after W st 0) i st =
    (Ret i', after_scrolls st (length indices) evs) /\
    count_scrolls evs = length indices /\
    (indices <> [] -> i' <> None) /\
    navigations evs = [].
Proof.
  induction indices as [|j rest IH]; intros i st Hgrow.
  - exists i, []. simpl. unfold ret, after_scrolls. simpl.
    rewrite Nat.add_0_r, app_nil_r. destruct st; simpl.
    repeat split; try reflexivity. intros H; now contradiction H.
  - simpl scroll_loop.
    pose proof (scroll_once W scroll_pause pause_ok st) as Hs.
    unfold bind in Hs. unfold bind at 1 2 3.
    destruct (scroll_to_bottom st) as [[[]|e0] s1]; try discriminate Hs.
    destruct (sleep scroll_pause s1) as [[[]|e1] s2]; try discriminate Hs.
    rewrite Hs. unfold bind at 1. unfold log at 1, emit at 1.
    assert (Hne : (height_after W st 1 =? height_after W st 0)%Z = false).
    { apply Z.eqb_neq. apply Hgrow. simpl. lia. }
    rewrite Hne. rewrite emit_st_add.
    set (s3 := add_events _ _).
    assert (Es3 : s3 = after_scrolls st 1
                         [EvScrollToBottom; EvSleep scroll_pause;
                          EvLog Debug "Scroll: height changed"]).
    { unfold s3, add_events, after_scrolls. simpl. now rewrite <- app_assoc. }
    assert (Eh : height_after W st 1 = height_after W s3 0).
    { rewrite Es3, height_after_after. reflexivity. }
    rewrite Eh.
    destruct (IH (Some j) s3) as [i' [evs [Hrun [Hc [Hi Hn]]]]].
    + intros k Hk. rewrite Es3, !height_after_after. simpl. apply Hgrow.
      simpl. lia.
    + rewrite Hrun. exists i'. eexists. split.
      * rewrite Es3, after_scrolls_after. reflexivity.
      * rewrite count_scrolls_app, navigations_app, Hc, Hn.
        repeat split; try reflexivity.
        intros _. destruct rest as [|j' rest'].
        -- simpl in Hrun. injection Hrun as <- _. discriminate.
        -- apply Hi. discriminate.
Qed.

End StabilizerRuns.

(** A run of [scroll_and_wait] with a budget of at least one scroll. *)
Lemma scroll_and_wait_runs
    (W : World) (wait_time : Z) (scroll_pause : duration) (max_scrolls : Z)
    (st : state) :
  sleepable scroll_pause = true ->
  (0 <= wait_time)%Z ->
  (1 <= max_scrolls)%Z ->
  exists evs,
    scroll_and_wait W wait_time scroll_pause max_scrolls st =
    (Ret tt, after_scrolls st (count_scrolls evs) evs) /\
    1 <= count_scrolls evs <= Z.to_nat max_scrolls /\
    navigations evs = [].
Proof.
  intros Hp Hw Hm.
  unfold scroll_and_wait. unfold bind at 1. unfold get_scroll_height at 1.
  destruct (scroll_loop_total W scroll_pause Hp (range 0 max_scrolls)
              (scroll_height W (page_source st) (scrolls st)) None st)
    as [i' [evs [Hrun [Hle [Hge Hn]]]]].
  rewrite length_range in Hle.
  assert (Hne : range 0 max_scrolls <> []).
  { rewrite range_cons by lia. discriminate. }
  destruct (Hge Hne) as [H1 Hi].
  destruct i' as [i'|]; [|now contradiction Hi].
  unfold bind at 1. rewrite Hrun.
  unfold bind, log, emit. rewrite (sleep_seconds _ _ Hw).
  exists (evs ++ [EvLog Info "Scrolling completed"; EvSleep (Seconds wait_time)]).
  rewrite count_scrolls_app, navigations_app, Hn. simpl.
  rewrite Nat.add_0_r. split; [|split; [lia|reflexivity]].
  unfold emit_st, add_events, after_scrolls. simpl.
  rewrite <- !app_assoc. reflexivity.
Qed.

(** A run of [sleeper]. *)
Lemma sleeper_runs (minimum maximum : Z) (st : state) :
  sleeper minimum maximum st =
  (Ret tt,
   add_events st
     [EvLog Debug "Sleeping";
      EvSleep (Uniform (Z.min minimum maximum) (Z.max minimum maximum))]).
Proof.
  unfold sleeper.
  destruct (maximum <? minimum)%Z eqn:E.
  - apply Z.ltb_lt in E. rewrite Z.min_r, Z.max_l by lia.
    unfold bind, log, sleep, emit, emit_st, add_events. simpl.
    rewrite <- ?app_assoc. reflexivity.
  - apply Z.ltb_ge in E. rewrite Z.min_l, Z.max_r by lia.
    unfold bind, log, sleep, emit, emit_st, add_events. simpl.
    rewrite <- ?app_assoc. reflexivity.
Qed.

(** X12. [scroll_and_wait] stops with the first scroll that leaves the
    page height unchanged: when the page grew on each of the first [n]
    scrolls and not on the next one, and the budget allows it, exactly
    [n + 1] scrolls are issued and the settle wait comes last. *)
Theorem scroll_and_wait_stops_when_stable
    (W : World) (wait_time : Z) (scroll_pause : duration) (max_scrolls : Z)
    (st : state) (n : nat) :
  sleepable scroll_pause = true ->
  (0 <= wait_time)%Z ->
  (Z.of_nat n < max_scrolls)%Z ->
  (forall j, j < n -> height_after W st (S j) <> height_after W st j) ->
  height_after W st (S n) = height_after W st n ->
  exists evs,
    scroll_and_wait W wait_time scroll_pause max_scrolls st =
    (Ret tt, after_scrolls st (S n) (evs ++ [EvSleep (Seconds wait_time)])) /\
    count_scrolls evs = S n.
Proof.
  intros Hp Hw Hn Hgrow Hstable.
  unfold scroll_and_wait. unfold bind at 1. unfold get_scroll_height at 1.
  fold (height_after W st 0).
  replace (scroll_height W (page_source st) (scrolls st))
    with (height_after W st 0)
    by (unfold height_after; now rewrite Nat.add_0_r).
  destruct (scroll_loop_stops W scroll_pause Hp n (range 0 max_scrolls) None st)
    as [i' [evs [Hrun [Hc _]]]]; try assumption.
  { rewrite length_range. lia. }
  unfold bind at 1. rewrite Hrun.
  unfold bind, log, emit. rewrite (sleep_seconds _ _ Hw).
  exists (evs ++ [EvLog Info "Scrolling completed"]). split.
  - unfold emit_st, add_events, after_scrolls. simpl.
    rewrite <- !app_assoc. reflexivity.
  - rewrite count_scrolls_app, Hc. simpl. lia.
Qed.

Lemma scroll_and_wait_stops_when_stable_witness :
  exists evs,
    scroll_and_wait (Outlet.with_heights Outlet.lazy_height) 2 (Millis 500) 10
      Shop.fresh =
    (Ret tt, after_scrolls Shop.fresh 4 (evs ++ [EvSleep (Seconds 2)])) /\
    count_scrolls evs = 4.
Proof.
  apply (scroll_and_wait_stops_when_stable
           (Outlet.with_heights Outlet.lazy_height) 2 (Millis 500) 10
           Shop.fresh 3).
  - reflexivity.
  - lia.
  - lia.
  - intros j Hj. destruct j as [|[|[|j]]]; try lia; discriminate.
  - reflexivity.
Defined.

(** X13. On a page that grows with every scroll [scroll_and_wait] uses
    its whole budget: exactly [max_scrolls] scrolls, then the settle
    wait. *)
Theorem scroll_and_wait_exhausts_budget
    (W : World) (wait_time : Z) (scroll_pause : duration) (max_scrolls : Z)
    (st : state) :
  sleepable scroll_pause = true ->
  (0 <= wait_time)%Z ->
  (1 <= max_scrolls)%Z ->
  (forall j, j < Z.to_nat max_scrolls ->
     height_after W st (S j) <> height_after W st j) ->
  exists evs,
    scroll_and_wait W wait_time scroll_pause max_scrolls st =
    (Ret tt,
     after_scrolls st (Z.to_nat max_scrolls)
       (evs ++ [EvSleep (Seconds wait_time)])) /\
    count_scrolls evs = Z.to_nat max_scrolls.
Proof.
  intros Hp Hw Hm Hgrow.
  assert (Hlen : length (range 0 max_scrolls) = Z.to_nat max_scrolls).
  { rewrite length_range. f_equal. lia. }
  unfold scroll_and_wait. unfold bind at 1. unfold get_scroll_height at 1.
  replace (scroll_height W (page_source st) (scrolls st))
    with (height_after W st 0)
    by (unfold height_after; now rewrite Nat.add_0_r).
  destruct (scroll_loop_exhausts W scroll_pause Hp (range 0 max_scrolls) None st)
    as [i' [evs [Hrun [Hc [Hi _]]]]].
  { intros j Hj. apply Hgrow. now rewrite <- Hlen. }
  rewrite Hlen in Hrun, Hc.
  assert (Hsome : i' <> None).
  { apply Hi. intros E. rewrite E in Hlen. simpl in Hlen. lia. }
  destruct i' as [i'|]; [|now contradiction Hsome].
  unfold bind at 1. rewrite Hrun.
  unfold bind, log, emit. rewrite (sleep_seconds _ _ Hw).
  exists (evs ++ [EvLog Info "Scrolling completed"]). split.
  - unfold emit_st, add_events, after_scrolls. simpl.
    rewrite <- !app_assoc. reflexivity.
  - rewrite count_scrolls_app, Hc. simpl. lia.
Qed.

Lemma scroll_and_wait_exhausts_budget_witness :
  exists evs,
    scroll_and_wait (Outlet.with_heights Outlet.endless_height) 2 (Millis 500)
      10 Shop.fresh =
    (Ret tt, after_scrolls Shop.fresh 10 (evs ++ [EvSleep (Seconds 2)])) /\
    count_scrolls evs = 10.
Proof.
  apply (scroll_and_wait_exhausts_budget
           (Outlet.with_heights Outlet.endless_height) 2 (Millis 500) 10
           Shop.fresh).
  - reflexivity.
  - lia.
  - lia.
  - intros j Hj. unfold height_after. cbn [scroll_height Outlet.with_heights].
    unfold Outlet.endless_height. change (scrolls Shop.fresh) with 0. lia.
Defined.

(** X14. With [max_scrolls <= 0] the loop body never runs, the loop
    variable stays unbound and the log line after the loop raises
    [UnboundLocalError]: nothing is scrolled and the settle wait is not
    slept. *)
Theorem scroll_and_wait_zero_budget_raises
    (W : World) (wait_time : Z) (scroll_pause : duration) (max_scrolls : Z)
    (st : state) :
  (max_scrolls <= 0)%Z ->
  scroll_and_wait W wait_time scroll_pause max_scrolls st =
  (Raise UnboundLocalError, st).
Proof.
  intros H. unfold scroll_and_wait. rewrite range_empty by lia.
  destruct st. reflexivity.
Qed.

Lemma scroll_and_wait_zero_budget_raises_witness :
  scroll_and_wait (Shop.world Shop.always_503) 2 (Millis 500) 0 Shop.fresh =
  (Raise UnboundLocalError, Shop.fresh).
Proof.
  apply (scroll_and_wait_zero_budget_raises (Shop.world Shop.always_503)). lia.
Defined.

(** X15. With a budget of at least one scroll, [scroll_and_wait]
    returns normally on every page: it scrolls at least once and at
    most [max_scrolls] times, navigates nowhere and leaves the session
    on the same page. *)
Theorem scroll_and_wait_within_budget
    (W : World) (wait_time : Z) (scroll_pause : duration) (max_scrolls : Z)
    (st : state) :
  sleepable scroll_pause = true ->
  (0 <= wait_time)%Z ->
  (1 <= max_scrolls)%Z ->
  exists evs,
    scroll_and_wait W wait_time scroll_pause max_scrolls st =
    (Ret tt, after_scrolls st (count_scrolls evs) evs) /\
    1 <= count_scrolls evs <= Z.to_nat max_scrolls /\
    navigations evs = [].
Proof. intros. apply scroll_and_wait_runs; assumption. Qed.

Lemma scroll_and_wait_within_budget_witness :
  exists evs,
    scroll_and_wait (Shop.world Shop.always_503) 2 (Millis 500) 10 Shop.fresh =
    (Ret tt, after_scrolls Shop.fresh (count_scrolls evs) evs) /\
    1 <= count_scrolls evs <= Z.to_nat 10 /\
    navigations evs = [].
Proof.
  apply (scroll_and_wait_within_budget (Shop.world Shop.always_503)).
  - reflexivity.
  - lia.
  - lia.
Defined.


(** ** More on the field extractor *)

Lemma only_logs_navigations logs : only_logs logs = true -> navigations logs = [].
Proof.
  unfold only_logs. induction logs as [|e l IH]; [reflexivity|].
  simpl. intros H. apply andb_true_iff in H. destruct H as [He Hl].
  destruct e; try discriminate He. now apply IH.
Qed.

Lemma only_logs_no_scroll logs : only_logs logs = true -> count_scrolls logs = 0.
Proof.
  unfold only_logs. induction logs as [|e l IH]; [reflexivity|].
  simpl. intros H. apply andb_true_iff in H. destruct H as [He Hl].
  destruct e; try discriminate He. now apply IH.
Qed.

(** Reading one sub-element never raises and only logs. *)
Lemma extract_text_logs item selector attr st :
  exists v logs,
    extract_text item selector attr st = (Ret v, add_events st logs) /\
    only_logs logs = true.
Proof.
  unfold extract_text, find_or_str, try_except, bind.
  destruct (find item selector) as [el|]; destruct (opt_truthy attr); simpl.
  - eexists. exists []. rewrite add_events_nil. split; reflexivity.
  - eexists. exists []. rewrite add_events_nil. split; reflexivity.
  - eexists. eexists. unfold log, emit, ret. rewrite emit_st_add.
    split; reflexivity.
  - eexists. eexists. unfold log, emit, ret. rewrite emit_st_add.
    split; reflexivity.
Qed.

Lemma extract_field_logs self item field_type st :
  exists v logs,
    extract_field self item field_type st = (Ret v, add_events st logs) /\
    only_logs logs = true.
Proof.
  unfold extract_field.
  destruct (negb (opt_truthy (lookup field_type _))).
  - eexists. eexists. unfold bind, log, emit, ret. rewrite emit_st_add.
    split; reflexivity.
  - match goal with
    | |- context [extract_text item ?s ?a] =>
        destruct (extract_text_logs item s a st) as [v [logs [Hrun Hl]]]
    end.
    unfold bind. rewrite Hrun.
    destruct ((field_type =? "link")%string && truthy v);
      eexists; exists logs; split; (reflexivity || exact Hl).
Qed.

Lemma extract_items_logs self items :
  forall results st,
  exists r logs,
    extract_items self items results st = (Ret r, add_events st logs) /\
    only_logs logs = true.
Proof.
  induction items as [|item rest IH]; intros results st.
  - exists results, []. rewrite add_events_nil. split; reflexivity.
  - simpl extract_items.
    destruct (extract_field_logs self item "title" st) as [t [l1 [H1 L1]]].
    unfold bind at 1. rewrite H1.
    destruct (negb (truthy t)).
    + destruct (IH results (add_events st l1)) as [r [l2 [H2 L2]]].
      rewrite H2, add_events_add. exists r, (l1 ++ l2).
      split; [reflexivity|]. rewrite only_logs_app, L1, L2. reflexivity.
    + destruct (extract_field_logs self item "image" (add_events st l1))
        as [im [l2 [H2 L2]]].
      unfold bind at 1. rewrite H2.
      destruct (extract_field_logs self item "link"
                  (add_events (add_events st l1) l2)) as [li [l3 [H3 L3]]].
      unfold bind at 1. rewrite H3.
      unfold bind at 1, log at 1, emit at 1. rewrite emit_st_add.
      match goal with
      | |- context [extract_items self rest ?r ?s] =>
          destruct (IH r s) as [r' [l4 [H4 L4]]]
      end.
      rewrite H4, !add_events_add. exists r'. eexists.
      split; [reflexivity|].
      rewrite !only_logs_app, L1, L2, L3, L4. reflexivity.
Qed.

(** A run of [extract]: its value and its events. *)
Lemma extract_logs (self : ProductExtractor) (st : state) :
  exists logs,
    extract self st = (Ret (records_of self), add_events st logs) /\
    only_logs logs = true.
Proof.
  destruct (extract_runs self st) as [evs Hval].
  assert (Hlogs : exists r logs,
             extract self st = (Ret r, add_events st logs) /\
             only_logs logs = true).
  { unfold extract, list_items, try_except.
    destruct (self_soup self) as [soup|]; simpl.
    - unfold bind at 1. unfold bind at 2. unfold log at 1, emit at 1, ret at 1.
      rewrite emit_st_add.
      destruct (extract_items_logs self (select_listitems soup) []
                  (add_events st [EvLog Info "Found product items"]))
        as [r' [l [H L]]].
      unfold bind at 1. rewrite H.
      unfold bind, log, emit, ret. rewrite emit_st_add, !add_events_add.
      eexists. eexists. split; [reflexivity|].
      rewrite !only_logs_app, L. reflexivity.
    - unfold bind, log, emit, ret. rewrite emit_st_add.
      eexists. eexists. split; reflexivity. }
  destruct Hlogs as [r [logs [Hrun Hl]]].
  exists logs. split; [|exact Hl].
  rewrite Hrun. rewrite Hrun in Hval. injection Hval as -> _. reflexivity.
Qed.

(** X17. Extraction is free of side effects other than logging: for
    every extractor and every soup, [extract] returns the records of
    the soup the extractor holds and adds only log lines to the trace;
    the browser session is left as it is and nothing raises. *)
Theorem extract_only_logs (self : ProductExtractor) (st : state) :
  exists logs,
    extract self st = (Ret (records_of self), add_events st logs) /\
    only_logs logs = true.
Proof. intros. apply extract_logs; assumption. Qed.

(** X18. A field type the extractor does not know gives the empty
    string and a warning; the item is not looked at. *)
Theorem extract_field_unknown_type
    (self : ProductExtractor) (item : node) (field_type : string) (st : state) :
  field_type <> "title" ->
  field_type <> "image" ->
  field_type <> "link" ->
  extract_field self item field_type st =
  (Ret (PyStr ""), add_events st [EvLog Warning "Unknown field type"]).
Proof.
  intros H1 H2 H3. unfold extract_field. cbv zeta. unfold lookup.
  assert (E1 : ("title" =? field_type)%string = false)
    by (apply String.eqb_neq; congruence).
  assert (E2 : ("image" =? field_type)%string = false)
    by (apply String.eqb_neq; congruence).
  assert (E3 : ("link" =? field_type)%string = false)
    by (apply String.eqb_neq; congruence).
  rewrite E1, E2, E3. reflexivity.
Qed.

Lemma extract_field_unknown_type_witness :
  extract_field Shop.extractor_bare Shop.item_bare "price" Shop.fresh =
  (Ret (PyStr ""), add_events Shop.fresh [EvLog Warning "Unknown field type"]).
Proof.
  apply (extract_field_unknown_type Shop.extractor_bare Shop.item_bare "price");
    discriminate.
Defined.

(** X19. A sub-element that is not in the item gives the empty string,
    for a text as for an attribute: the failed access is caught, logged
    as a warning and does not raise. *)
Theorem extract_text_missing_element
    (item : node) (selector : string) (attr : option string) (st : state) :
  find item selector = None ->
  extract_text item selector attr st =
  (Ret (PyStr ""),
   add_events st [EvLog Warning "Extraction failed for selector"]).
Proof.
  intros H. unfold extract_text, find_or_str, try_except, bind.
  rewrite H. destruct (opt_truthy attr); reflexivity.
Qed.

Lemma extract_text_missing_element_witness :
  extract_text Outlet.item_untitled "h2" None Shop.fresh =
  (Ret (PyStr ""),
   add_events Shop.fresh [EvLog Warning "Extraction failed for selector"]).
Proof.
  apply (extract_text_missing_element Outlet.item_untitled "h2" None).
  reflexivity.
Defined.

Lemma lstrip_head l :
  match lstrip_chars l with
  | [] => True
  | c :: _ => isspace c = false
  end.
Proof.
  induction l as [|c t IH]; simpl; [exact I|].
  destruct (isspace c) eqn:E; [exact IH|exact E].
Qed.

Lemma lstrip_fix l :
  match l with
  | [] => True
  | c :: _ => isspace c = false
  end ->
  lstrip_chars l = l.
Proof. destruct l as [|c t]; simpl; [reflexivity|]. now intros ->. Qed.

Lemma lstrip_suffix l : exists sp, l = sp ++ lstrip_chars l.
Proof.
  induction l as [|c t [sp IH]]; simpl.
  - now exists [].
  - destruct (isspace c).
    + exists (c :: sp). simpl. now rewrite <- IH.
    + now exists [].
Qed.

(** Stripping twice is stripping once. *)
Lemma strip_idempotent s : strip (strip s) = strip s.
Proof.
  unfold strip. rewrite list_ascii_of_string_of_list_ascii.
  set (a := lstrip_chars (list_ascii_of_string s)).
  set (b := lstrip_chars (rev a)).
  assert (Hb : lstrip_chars b = b) by (apply lstrip_fix, lstrip_head).
  assert (Hrb : lstrip_chars (rev b) = rev b).
  { apply lstrip_fix.
    destruct (lstrip_suffix (rev a)) as [sp Hsp]. fold b in Hsp.
    assert (Ha : a = rev b ++ rev sp).
    { rewrite <- rev_app_distr, <- Hsp. now rewrite rev_involutive. }
    pose proof (lstrip_head (list_ascii_of_string s)) as Hh. fold a in Hh.
    destruct (rev b) as [|c t]; [exact I|].
    rewrite Ha in Hh. exact Hh. }
  now rewrite Hrb, rev_involutive, Hb.
Qed.

(** A run of [pagination], with or without a soup. *)
Lemma pagination_runs
    (W : World) (soup : option node) (base_url : string) (st : state) :
  exists v logs,
    pagination W soup base_url st = (Ret v, add_events st logs) /\
    only_logs logs = true /\
    (v <> PyNone ->
     exists document next_page href,
       soup = Some document /\
       find_class document "a" "s-pagination-next" = Some next_page /\
       tag_get next_page "href" = PyStr href /\
       href <> "" /\
       v = PyStr (urljoin W base_url href)).
Proof.
  destruct soup as [document|].
  - destruct (find_class document "a" "s-pagination-next") as [next_page|] eqn:Hf.
    + destruct (tag_get next_page "href") as [|href] eqn:Hg.
      * rewrite (pagination_no_href W document base_url next_page st Hf)
          by (rewrite Hg; reflexivity).
        eexists. eexists. repeat split. intros H; now contradiction H.
      * destruct (String.eqb_spec href "") as [->|Hne].
        -- rewrite (pagination_no_href W document base_url next_page st Hf)
             by (rewrite Hg; reflexivity).
           eexists. eexists. repeat split. intros H; now contradiction H.
        -- rewrite (pagination_next W document base_url next_page href st Hf Hg Hne).
           eexists. eexists. repeat split. intros _.
           exists document, next_page, href. repeat split; assumption.
    + rewrite (pagination_no_link W document base_url st Hf).
      eexists. eexists. repeat split. intros H; now contradiction H.
  - unfold pagination, try_except, bind. simpl.
    unfold log, emit, ret, bind. rewrite !emit_st_add, add_events_add.
    eexists. eexists. repeat split. intros H; now contradiction H.
Qed.

(** X20. Every record [extract] returns has the three keys [Title],
    [Image], [Link] in this order, and its title is a non-empty string
    without surrounding whitespace; there are never more records than
    listing items in the soup. *)
Theorem extract_records_are_titled
    (self : ProductExtractor) (st : state) (results : list record) :
  fst (extract self st) = Ret results ->
  (forall r, In r results ->
     exists title image link,
       r = [("Title", PyStr title); ("Image", image); ("Link", link)] /\
       title <> "" /\
       strip title = title) /\
  length results <=
  match self_soup self with
  | Some soup => length (select_listitems soup)
  | None => 0
  end.
Proof.
  intros H. destruct (extract_runs self st) as [evs Hrun].
  rewrite Hrun in H. simpl in H. injection H as <-.
  unfold records_of. destruct (self_soup self) as [soup|]; [|split; [intros r []|reflexivity]].
  split.
  - intros r Hin. apply in_flat_map in Hin. destruct Hin as [item [_ Hr]].
    unfold item_records in Hr.
    destruct (truthy (title_value item)) eqn:Ht; [|destruct Hr].
    destruct Hr as [<-|[]].
    unfold title_value in *.
    destruct (find item "h2") as [h|]; [|discriminate Ht].
    exists (strip (text h)), (image_value item),
      (link_value (self_base_url self) item).
    split; [reflexivity|]. split.
    + simpl in Ht. apply negb_true_iff in Ht. now apply String.eqb_neq.
    + apply strip_idempotent.
  - induction (select_listitems soup) as [|item l IH]; simpl; [lia|].
    rewrite length_app. unfold item_records at 1.
    destruct (truthy (title_value item)); simpl; lia.
Qed.

Lemma extract_records_are_titled_witness :
  (forall r,
     In r [[("Title", PyStr "Widget"); ("Image", PyNone); ("Link", PyNone)];
           [("Title", PyStr "Import"); ("Image", PyStr "");
            ("Link", PyStr "https://www.amazon.comhttps://www.amazon.co.uk/dp/9")]] ->
     exists title image link,
       r = [("Title", PyStr title); ("Image", image); ("Link", link)] /\
       title <> "" /\
       strip title = title) /\
  2 <= 3.
Proof.
  exact (extract_records_are_titled
           {| self_soup := Some Outlet.page_mixed; self_base_url := url |}
           Shop.fresh _ eq_refl).
Defined.

(** ** More on the pagination resolver *)



(** ** The search url *)

Lemma quote_char_url_safe c : forallb url_safe (quote_char c) = true.
Proof. destruct c as [[] [] [] [] [] [] [] []]; reflexivity. Qed.

(** X22. A quoted keyword consists of letters, digits, [_.-~], [+] and
    [%] only: no space, slash, ampersand or other reserved character of
    the keyword reaches the query of the search url. *)
Theorem quote_plus_url_safe (keyword : string) :
  forallb url_safe (list_ascii_of_string (quote_plus keyword)) = true.
Proof.
  unfold quote_plus. rewrite list_ascii_of_string_of_list_ascii.
  induction (list_ascii_of_string keyword) as [|c l IH]; [reflexivity|].
  simpl. now rewrite forallb_app, quote_char_url_safe, IH.
Qed.

(** ** More on loading a page *)

Lemma bind_run {A B : Type} (m : M A) (k : A -> M B) st a st' :
  m st = (Ret a, st') -> bind m k st = k a st'.
Proof. intros H. unfold bind. now rewrite H. Qed.

Lemma bind_raise {A B : Type} (m : M A) (k : A -> M B) st e st' :
  m st = (Raise e, st') -> bind m k st = (Raise e, st').
Proof. intros H. unfold bind. now rewrite H. Qed.

Lemma loader_loaded W u source st :
  web W u = Loaded source ->
  exists evs,
    loader W u st =
    (Ret tt,
     {| page_source := source;
        scrolls := count_scrolls evs;
        trace := trace st ++ evs |}) /\
    navigations evs = [u] /\
    In (EvSetPageLoadTimeout 15) evs /\
    1 <= count_scrolls evs <= 10.
Proof.
  intros Hweb. unfold loader.
  rewrite (bind_run _ _ st tt (emit_st (EvSetPageLoadTimeout 15) st))
    by reflexivity.
  rewrite (bind_run _ _ _ tt
             {| page_source := source; scrolls := 0;
                trace := (trace st ++ [EvSetPageLoadTimeout 15]) ++ [EvGet u] |})
    by (unfold driver_get; rewrite Hweb; reflexivity).
  rewrite (bind_run _ _ _ tt _ (sleeper_runs 3 8 _)).
  match goal with
  | |- context [scroll_and_wait W 2 (Millis 500) 10 ?s] =>
      destruct (scroll_and_wait_runs W 2 (Millis 500) 10 s
                  eq_refl ltac:(lia) ltac:(lia))
        as [evs [Hrun [Hc Hn]]]
  end.
  rewrite Hrun.
  exists ([EvSetPageLoadTimeout 15; EvGet u;
           EvLog Debug "Sleeping"; EvSleep (Uniform 3 8)] ++ evs).
  split; [|split; [|split]].
  - unfold add_events, after_scrolls. simpl.
    rewrite <- !app_assoc. reflexivity.
  - simpl. rewrite Hn. reflexivity.
  - simpl. tauto.
  - simpl. change (Z.to_nat 10) with 10 in Hc. lia.
Qed.

(** A run of [load_and_scroll] on a url that loads. *)
Lemma load_and_scroll_runs
    (W : World) (u source : string) (st : state) :
  web W u = Loaded source ->
  exists evs,
    load_and_scroll W u st =
    (Ret tt,
     {| page_source := source;
        scrolls := count_scrolls evs;
        trace := trace st ++ evs |}) /\
    navigations evs = [u] /\
    In (EvSetPageLoadTimeout 15) evs /\
    1 <= count_scrolls evs <= 10.
Proof.
  intros Hweb.
  destruct (loader_loaded W u source
              (emit_st (EvLog Info "Navigating to") st) Hweb)
    as [evs [Hrun [Hn [Hin Hc]]]].
  unfold load_and_scroll, try_except.
  rewrite (bind_run _ _ st tt (emit_st (EvLog Info "Navigating to") st))
    by reflexivity.
  rewrite (bind_run _ _ _ tt _ Hrun).
  exists ([EvLog Info "Navigating to"] ++ evs ++
          [EvLog Info "Successfully loaded and scrolled"]).
  split; [|split; [|split]].
  - unfold log, emit, emit_st. simpl.
    rewrite count_scrolls_app. simpl. rewrite Nat.add_0_r.
    rewrite <- !app_assoc. reflexivity.
  - simpl. rewrite navigations_app, Hn. reflexivity.
  - simpl. right. apply in_or_app. now left.
  - simpl. rewrite count_scrolls_app. simpl. lia.
Qed.

(** An exception of [driver.get] that is no WebDriver failure passes
    through [load_and_scroll]. *)
Lemma load_and_scroll_raises W u e st :
  web W u = NavFails e ->
  isinstance e WebDriverException = false ->
  load_and_scroll W u st =
  (Raise e,
   add_events st
     [EvLog Info "Navigating to"; EvSetPageLoadTimeout 15; EvGet u]).
Proof.
  intros Hw He.
  unfold load_and_scroll, try_except, bind, loader, bind, driver_get,
    set_page_load_timeout, log, emit.
  simpl. rewrite Hw.
  destruct e; try discriminate He; simpl;
    rewrite !emit_st_add, !add_events_add; reflexivity.
Qed.

(** A run of [scrape_search_results], by outcome of the navigation. *)
Lemma scrape_search_results_runs
    (W : World) (keyword : string) (st : state) :
  exists st' evs,
    scrape_search_results W keyword st =
    (Ret match web W (get_search_url keyword) with
         | Loaded source => source
         | NavFails e =>
             if isinstance e WebDriverException then page_source st else ""
         end,
     st') /\
    trace st' = trace st ++ evs /\
    navigations evs = [get_search_url keyword].
Proof.
  destruct (web W (get_search_url keyword)) as [source|e] eqn:Hweb.
  - unfold scrape_search_results, try_except.
    unfold bind at 1. unfold log at 1, emit at 1.
    destruct (load_and_scroll_runs W (get_search_url keyword) source
                (emit_st (EvLog Info "Navigating to search page") st) Hweb)
      as [evs [Hrun [Hn _]]].
    unfold bind at 1. rewrite Hrun.
    unfold bind, log, emit, driver_page_source. simpl.
    eexists. eexists. split; [reflexivity|]. simpl.
    split; [rewrite <- !app_assoc; reflexivity|].
    simpl. rewrite navigations_app, Hn. reflexivity.
  - destruct (isinstance e WebDriverException) eqn:He.
    + unfold scrape_search_results, try_except.
      unfold bind at 1. unfold log at 1, emit at 1.
      unfold bind at 1.
      rewrite (load_and_scroll_swallows W _ e _ Hweb He).
      unfold bind, log, emit, driver_page_source. simpl.
      eexists. eexists. split; [reflexivity|]. simpl.
      split; [rewrite <- !app_assoc; reflexivity|reflexivity].
    + unfold scrape_search_results, try_except.
      unfold bind at 1. unfold log at 1, emit at 1.
      unfold bind at 1.
      rewrite (load_and_scroll_raises W _ e _ Hweb He).
      simpl select_handler. rewrite isinstance_exception. simpl.
      unfold bind, log, emit, ret. simpl.
      eexists. eexists. split; [reflexivity|]. simpl.
      split; [rewrite <- !app_assoc; reflexivity|reflexivity].
Qed.

(** X23. When the navigation succeeds, [load_and_scroll] returns with
    the session on the new page: the page-load timeout is set, the url
    is fetched once, and the page is scrolled at least once and at most
    ten times. *)
Theorem load_and_scroll_loaded
    (W : World) (u source : string) (st : state) :
  web W u = Loaded source ->
  exists evs,
    load_and_scroll W u st =
    (Ret tt,
     {| page_source := source;
        scrolls := count_scrolls evs;
        trace := trace st ++ evs |}) /\
    navigations evs = [u] /\
    In (EvSetPageLoadTimeout 15) evs /\
    1 <= count_scrolls evs <= 10.
Proof. intros. apply load_and_scroll_runs; assumption. Qed.

Lemma load_and_scroll_loaded_witness :
  exists evs,
    load_and_scroll (Outlet.with_heights Outlet.lazy_height)
      "https://www.amazon.com/s?k=widget" Shop.fresh =
    (Ret tt,
     {| page_source := Shop.page1_source;
        scrolls := count_scrolls evs;
        trace := trace Shop.fresh ++ evs |}) /\
    navigations evs = ["https://www.amazon.com/s?k=widget"] /\
    In (EvSetPageLoadTimeout 15) evs /\
    1 <= count_scrolls evs <= 10.
Proof.
  apply (load_and_scroll_loaded (Outlet.with_heights Outlet.lazy_height)).
  reflexivity.
Defined.

(** X24. [scrape_search_results] never raises and calls [driver.get]
    exactly once, on the search url of the keyword.  It returns the
    source of the loaded page when the navigation succeeds, the source
    the session showed before when the navigation fails with a
    WebDriver failure (timeouts included), and the empty string when it
    fails with anything else. *)
Theorem scrape_search_results_never_raises
    (W : World) (keyword : string) (st : state) :
  exists st' evs,
    scrape_search_results W keyword st =
    (Ret match web W (get_search_url keyword) with
         | Loaded source => source
         | NavFails e =>
             if isinstance e WebDriverException then page_source st else ""
         end,
     st') /\
    trace st' = trace st ++ evs /\
    navigations evs = [get_search_url keyword].
Proof. intros. apply scrape_search_results_runs; assumption. Qed.

(** ** More on the crawl controller *)

Lemma bind_page_source {B : Type} (k : string -> M B) st :
  bind driver_page_source k st = k (page_source st) st.
Proof. reflexivity. Qed.

Section CrawlLoop.

Variable W : World.
Variable ext : ProductExtractor.

(** Each pass through the crawl loop navigates at most once. *)
Lemma scrape_loop_trace fuel :
  forall max_pages soup page results st,
  exists evs,
    trace (snd (scrape_loop W ext fuel max_pages soup page results st)) =
    trace st ++ evs /\
    length (navigations evs) <= fuel.
Proof.
  induction fuel as [|fuel IH]; intros max_pages soup page results st.
  - exists []. simpl. now rewrite app_nil_r.
  - simpl scrape_loop.
    destruct (is_some soup && (page <? max_pages)%Z).
    2:{ exists []. simpl. rewrite app_nil_r. split; [reflexivity|lia]. }
    destruct (extract_logs ext st) as [l1 [H1 L1]].
    rewrite (bind_run _ _ _ _ _ H1).
    rewrite (bind_run _ _ _ tt
               (add_events (add_events st l1) [EvLog Info "Page scraped."]))
      by reflexivity.
    destruct (pagination_runs W soup url
                (add_events (add_events st l1) [EvLog Info "Page scraped."]))
      as [v [l2 [H2 [L2 _]]]].
    rewrite (bind_run _ _ _ _ _ H2).
    pose proof (only_logs_navigations _ L1) as N1.
    pose proof (only_logs_navigations _ L2) as N2.
    destruct (negb (truthy v)).
    { eexists. simpl. split; [rewrite <- !app_assoc; reflexivity|].
      rewrite !navigations_app, N1, N2. simpl. lia. }
    unfold driver_get at 1.
    destruct (web W (pystr v)) as [source|e].
    2:{ unfold bind at 1. simpl. eexists.
        split; [rewrite <- !app_assoc; reflexivity|].
        rewrite !navigations_app, N1, N2. simpl. lia. }
    unfold bind at 1.
    rewrite (bind_run _ _ _ tt _ (sleep_ok (Uniform 2 4) _ eq_refl)).
    rewrite bind_page_source.
    destruct (lxml_installed W) eqn:HL.
    + rewrite (bind_run _ _ _ _ _ (soup_maker_str W source _ HL)).
      match goal with
      | |- context [scrape_loop W ext fuel ?m ?s ?p ?r ?t] =>
          destruct (IH m s p r t) as [evs [Ht Hl]]
      end.
      rewrite Ht. simpl. eexists.
      split; [rewrite <- !app_assoc; reflexivity|].
      rewrite !navigations_app, N1, N2. simpl. lia.
    + rewrite (bind_run _ _ _ _ _ (soup_maker_feature_not_found W _ _ HL)).
      match goal with
      | |- context [scrape_loop W ext fuel ?m ?s ?p ?r ?t] =>
          destruct (IH m s p r t) as [evs [Ht Hl]]
      end.
      rewrite Ht. simpl. eexists.
      split; [rewrite <- !app_assoc; reflexivity|].
      rewrite !navigations_app, N1, N2. simpl. lia.
Qed.

(** What the loop returns is what it was given, followed by one copy of
    the extractor's records for each pass it made. *)
Lemma scrape_loop_batches fuel :
  forall max_pages soup page results st r,
  fst (scrape_loop W ext fuel max_pages soup page results st) = Ret r ->
  exists k, k <= fuel /\ r = results ++ batches k (records_of ext).
Proof.
  induction fuel as [|fuel IH]; intros max_pages soup page results st r H.
  - simpl in H. injection H as <-. exists 0. simpl.
    now rewrite app_nil_r.
  - simpl scrape_loop in H.
    destruct (is_some soup && (page <? max_pages)%Z).
    2:{ simpl in H. injection H as <-. exists 0. simpl.
        rewrite app_nil_r. split; [lia|reflexivity]. }
    destruct (extract_logs ext st) as [l1 [H1 L1]].
    rewrite (bind_run _ _ _ _ _ H1) in H.
    rewrite (bind_run _ _ _ tt
               (add_events (add_events st l1) [EvLog Info "Page scraped."]))
      in H by reflexivity.
    destruct (pagination_runs W soup url
                (add_events (add_events st l1) [EvLog Info "Page scraped."]))
      as [v [l2 [H2 _]]].
    rewrite (bind_run _ _ _ _ _ H2) in H.
    destruct (negb (truthy v)).
    { simpl in H. injection H as <-. exists 1. simpl.
      rewrite app_nil_r. split; [lia|reflexivity]. }
    unfold bind at 1 in H.
    destruct (driver_get W (pystr v) _) as [[[]|e] st4]; [|discriminate H].
    unfold bind at 1 in H. simpl sleep in H. unfold emit at 1 in H.
    unfold bind at 1 in H. unfold driver_page_source at 1 in H.
    unfold bind at 1 in H.
    destruct (soup_maker W _ _) as [[soup'|e] st6]; [|discriminate H].
    destruct (IH _ _ _ _ _ _ H) as [k [Hk Hr]].
    exists (S k). split; [lia|].
    rewrite Hr. simpl. now rewrite <- app_assoc.
Qed.

End CrawlLoop.

Lemma length_batches k batch : length (batches k batch) = k * length batch.
Proof.
  induction k as [|k IH]; simpl; [reflexivity|].
  now rewrite length_app, IH.
Qed.

(** The soup the crawl starts from. *)
Lemma scrape_all_pages_start W keyword max_pages st :
  exists response st1 evs,
    fst (scrape_search_results W keyword st) = Ret response /\
    trace st1 = trace st ++ evs /\
    navigations evs = [get_search_url keyword] /\
    scrape_all_pages W keyword max_pages st =
    let soup :=
      if lxml_installed W
      then Some (Tag "[document]" [] (lxml_parse W response))
      else None in
    scrape_loop W {| self_soup := soup; self_base_url := url |}
      (Z.to_nat max_pages) max_pages soup 0 [] st1.
Proof.
  destruct (scrape_search_results_runs W keyword st)
    as [st0 [evs [Hrun [Ht Hn]]]].
  unfold scrape_all_pages.
  rewrite (bind_run _ _ _ _ _ Hrun). rewrite Hrun. simpl fst.
  replace (max_pages - 0)%Z with max_pages by lia.
  destruct (lxml_installed W) eqn:HL.
  - rewrite (bind_run _ _ _ _ _ (soup_maker_str W _ _ HL)).
    eexists. eexists. exists (evs ++ [EvLog Info "Soup created successfully"]).
    split; [reflexivity|]. split; [|split; [|reflexivity]].
    + simpl. now rewrite Ht, <- app_assoc.
    + rewrite navigations_app, Hn. reflexivity.
  - rewrite (bind_run _ _ _ _ _ (soup_maker_feature_not_found W _ _ HL)).
    eexists. eexists. exists (evs ++ [EvLog Error "Failed to create soup"]).
    split; [reflexivity|]. split; [|split; [|reflexivity]].
    + simpl. now rewrite Ht, <- app_assoc.
    + rewrite navigations_app, Hn. reflexivity.
Qed.

(** X25. The page cap bounds what the crawl returns: a crawl that
    returns gives back [k] copies of the records of the page the first
    response parses to, for some [k] of at most [max_pages], so never
    more than [max_pages] times the records of one page. *)
Theorem scrape_all_pages_returns_at_most_max_pages_batches
    (W : World) (keyword : string) (max_pages : Z) (st : state)
    (results : list record) :
  fst (scrape_all_pages W keyword max_pages st) = Ret results ->
  exists k response,
    k <= Z.to_nat max_pages /\
    fst (scrape_search_results W keyword st) = Ret response /\
    results =
    batches k
      (flat_map (item_records url)
         (select_listitems (Tag "[document]" [] (lxml_parse W response)))).
Proof.
  intros H.
  destruct (scrape_all_pages_start W keyword max_pages st)
    as [response [st1 [evs [Hresp [_ [_ Hrun]]]]]].
  rewrite Hrun in H. cbv zeta in H.
  destruct (scrape_loop_batches _ _ _ _ _ _ _ _ _ H) as [k [Hk Hr]].
  simpl in Hr. subst results.
  destruct (lxml_installed W).
  - exists k, response. repeat split; assumption || reflexivity.
  - exists 0, response. unfold records_of. simpl.
    repeat split; try assumption; try lia.
    clear. induction k as [|k IH]; simpl; [reflexivity|exact IH].
Qed.

Lemma scrape_all_pages_returns_at_most_max_pages_batches_witness :
  exists k response,
    k <= Z.to_nat 2 /\
    fst (scrape_search_results (Shop.world Shop.always_503) "widget"
           Shop.fresh) = Ret response /\
    [Shop.widget; Shop.widget] =
    batches k
      (flat_map (item_records url)
         (select_listitems
            (Tag "[document]" []
               (lxml_parse (Shop.world Shop.always_503) response)))).
Proof.
  apply (scrape_all_pages_returns_at_most_max_pages_batches
           (Shop.world Shop.always_503) "widget" 2 Shop.fresh).
  vm_compute. reflexivity.
Defined.

(** X26. Whatever the site does, one crawl calls [driver.get] at least
    once and at most [1 + max_pages] times (once for a cap below one),
    and the first call is for the search url of the keyword. *)
Theorem scrape_all_pages_navigation_bound
    (W : World) (keyword : string) (max_pages : Z) (st : state) :
  exists later,
    navigations (trace (snd (scrape_all_pages W keyword max_pages st))) =
    navigations (trace st) ++ get_search_url keyword :: later /\
    length later <= Z.to_nat max_pages.
Proof.
  destruct (scrape_all_pages_start W keyword max_pages st)
    as [response [st1 [evs [_ [Ht [Hn Hrun]]]]]].
  rewrite Hrun. cbv zeta.
  match goal with
  | |- context [scrape_loop W ?e ?f ?m ?s ?p ?r st1] =>
      destruct (scrape_loop_trace W e f m s p r st1) as [evs' [Ht' Hl]]
  end.
  rewrite Ht', Ht, !navigations_app, Hn.
  exists (navigations evs'). split; [|exact Hl].
  rewrite <- app_assoc. reflexivity.
Qed.

(** X27. With [max_pages <= 0] nothing is extracted and the crawl
    returns the empty list, but the search page is still loaded. *)
Theorem scrape_all_pages_no_pages
    (W : World) (keyword : string) (max_pages : Z) (st : state) :
  (max_pages <= 0)%Z ->
  fst (scrape_all_pages W keyword max_pages st) = Ret [] /\
  navigations (trace (snd (scrape_all_pages W keyword max_pages st))) =
  navigations (trace st) ++ [get_search_url keyword].
Proof.
  intros H.
  destruct (scrape_all_pages_start W keyword max_pages st)
    as [response [st1 [evs [_ [Ht [Hn Hrun]]]]]].
  rewrite Hrun. cbv zeta.
  replace (Z.to_nat max_pages) with 0 by lia. simpl.
  split; [reflexivity|]. now rewrite Ht, navigations_app, Hn.
Qed.

Lemma scrape_all_pages_no_pages_witness :
  fst (scrape_all_pages (Shop.world Shop.always_503) "widget" 0 Shop.fresh) =
    Ret [] /\
  navigations
    (trace (snd (scrape_all_pages (Shop.world Shop.always_503) "widget" 0
                   Shop.fresh))) =
  navigations (trace Shop.fresh) ++ [get_search_url "widget"].
Proof.
  apply (scrape_all_pages_no_pages (Shop.world Shop.always_503)). lia.
Defined.

(** X28. Without lxml the crawl still loads the search page, extracts
    nothing and returns the empty list: the missing parser is logged,
    not raised. *)
Theorem scrape_all_pages_without_parser
    (W : World) (keyword : string) (max_pages : Z) (st : state) :
  lxml_installed W = false ->
  fst (scrape_all_pages W keyword max_pages st) = Ret [] /\
  navigations (trace (snd (scrape_all_pages W keyword max_pages st))) =
  navigations (trace st) ++ [get_search_url keyword].
Proof.
  intros HL.
  destruct (scrape_all_pages_start W keyword max_pages st)
    as [response [st1 [evs [_ [Ht [Hn Hrun]]]]]].
  rewrite Hrun, HL. cbv zeta.
  destruct (Z.to_nat max_pages); simpl;
    (split; [reflexivity|]); now rewrite Ht, navigations_app, Hn.
Qed.

Lemma scrape_all_pages_without_parser_witness :
  fst (scrape_all_pages Outlet.no_lxml "widget" 5 Shop.fresh) = Ret [] /\
  navigations
    (trace (snd (scrape_all_pages Outlet.no_lxml "widget" 5 Shop.fresh))) =
  navigations (trace Shop.fresh) ++ [get_search_url "widget"].
Proof.
  apply (scrape_all_pages_without_parser Outlet.no_lxml). reflexivity.
Defined.

Lemma scrape_all_pages_start_loaded W keyword max_pages source st :
  web W (get_search_url keyword) = Loaded source ->
  lxml_installed W = true ->
  exists st1 evs,
    trace st1 = trace st ++ evs /\
    navigations evs = [get_search_url keyword] /\
    scrape_all_pages W keyword max_pages st =
    scrape_loop W
      {| self_soup := Some (Tag "[document]" [] (lxml_parse W source));
         self_base_url := url |}
      (Z.to_nat max_pages) max_pages
      (Some (Tag "[document]" [] (lxml_parse W source))) 0 [] st1.
Proof.
  intros Hweb HL.
  destruct (scrape_all_pages_start W keyword max_pages st)
    as [response [st1 [evs [Hresp [Ht [Hn Hrun]]]]]].
  destruct (scrape_search_results_runs W keyword st)
    as [st0 [evs0 [Hrun0 _]]].
  rewrite Hweb in Hrun0. rewrite Hrun0 in Hresp. injection Hresp as <-.
  rewrite HL in Hrun. exists st1, evs. repeat split; assumption.
Qed.

(** X29. A failed navigation to a later page is not caught: when the
    first page loads, has a next link, and [driver.get] of the next url
    raises, the exception leaves [scrape_all_pages] and the records
    extracted so far are not returned. *)
Theorem scrape_all_pages_later_failure_escapes
    (W : World) (keyword : string) (max_pages : Z) (st : state)
    (source : string) (next_page : node) (href : string) (e : exn) :
  web W (get_search_url keyword) = Loaded source ->
  lxml_installed W = true ->
  find_class (Tag "[document]" [] (lxml_parse W source)) "a"
    "s-pagination-next" = Some next_page ->
  tag_get next_page "href" = PyStr href ->
  href <> "" ->
  urljoin W url href <> "" ->
  web W (urljoin W url href) = NavFails e ->
  (1 <= max_pages)%Z ->
  fst (scrape_all_pages W keyword max_pages st) = Raise e.
Proof.
  intros Hweb HL Hf Hg Hne Hj Hfail Hm.
  destruct (scrape_all_pages_start_loaded W keyword max_pages source st Hweb HL)
    as [st1 [evs [_ [_ Hrun]]]].
  rewrite Hrun.
  replace (Z.to_nat max_pages) with (S (Z.to_nat (max_pages - 1))) by lia.
  simpl scrape_loop.
  assert (Hguard : (0 <? max_pages)%Z = true) by (apply Z.ltb_lt; lia).
  rewrite Hguard.
  match goal with
  | |- context [extract ?x] =>
      destruct (extract_logs x st1) as [l1 [H1 _]]
  end.
  rewrite (bind_run _ _ _ _ _ H1).
  rewrite (bind_run _ _ _ tt
             (add_events (add_events st1 l1) [EvLog Info "Page scraped."]))
    by reflexivity.
  rewrite (bind_run _ _ _ _ _
             (pagination_next W _ url next_page href _ Hf Hg Hne)).
  apply String.eqb_neq in Hj. unfold truthy. rewrite Hj.
  change (negb (negb false)) with false. cbv iota.
  unfold bind at 1, driver_get. simpl pystr. rewrite Hfail. reflexivity.
Qed.

Lemma scrape_all_pages_later_failure_escapes_witness :
  fst (scrape_all_pages Outlet.broken "widget" 5 Shop.fresh) =
  Raise WebDriverException.
Proof.
  apply (scrape_all_pages_later_failure_escapes Outlet.broken "widget" 5
           Shop.fresh Shop.page1_source
           (Tag "a" [("class", "s-pagination-next");
                     ("href", "/s?k=widget&page=2")]
              [NavigableString "Next"])
           "/s?k=widget&page=2" WebDriverException).
  - reflexivity.
  - reflexivity.
  - reflexivity.
  - reflexivity.
  - discriminate.
  - discriminate.
  - reflexivity.
  - lia.
Defined.

(** X30. When the first page loads and has no next link, a crawl with
    a cap of at least one page returns exactly the records of that page
    and navigates only once, to the search url. *)
Theorem scrape_all_pages_single_page
    (W : World) (keyword : string) (max_pages : Z) (st : state)
    (source : string) :
  web W (get_search_url keyword) = Loaded source ->
  lxml_installed W = true ->
  find_class (Tag "[document]" [] (lxml_parse W source)) "a"
    "s-pagination-next" = None ->
  (1 <= max_pages)%Z ->
  fst (scrape_all_pages W keyword max_pages st) =
  Ret (flat_map (item_records url)
         (select_listitems (Tag "[document]" [] (lxml_parse W source)))) /\
  navigations (trace (snd (scrape_all_pages W keyword max_pages st))) =
  navigations (trace st) ++ [get_search_url keyword].
Proof.
  intros Hweb HL Hf Hm.
  destruct (scrape_all_pages_start_loaded W keyword max_pages source st Hweb HL)
    as [st1 [evs [Ht [Hn Hrun]]]].
  rewrite Hrun.
  replace (Z.to_nat max_pages) with (S (Z.to_nat (max_pages - 1))) by lia.
  simpl scrape_loop.
  assert (Hguard : (0 <? max_pages)%Z = true) by (apply Z.ltb_lt; lia).
  rewrite Hguard.
  match goal with
  | |- context [extract ?x] =>
      destruct (extract_logs x st1) as [l1 [H1 L1]]
  end.
  rewrite (bind_run _ _ _ _ _ H1).
  rewrite (bind_run _ _ _ tt
             (add_events (add_events st1 l1) [EvLog Info "Page scraped."]))
    by reflexivity.
  rewrite (bind_run _ _ _ _ _ (pagination_no_link W _ url _ Hf)).
  simpl. split; [reflexivity|].
  rewrite !navigations_app, Ht, navigations_app, Hn.
  rewrite (only_logs_navigations _ L1). simpl. now rewrite !app_nil_r.
Qed.

Lemma scrape_all_pages_single_page_witness :
  fst (scrape_all_pages Outlet.single "gadget" 5 Shop.fresh) =
  Ret [Shop.gadget] /\
  navigations
    (trace (snd (scrape_all_pages Outlet.single "gadget" 5 Shop.fresh))) =
  navigations (trace Shop.fresh) ++ [get_search_url "gadget"].
Proof.
  apply (scrape_all_pages_single_page Outlet.single "gadget" 5 Shop.fresh
           Shop.page2_source).
  - reflexivity.
  - reflexivity.
  - reflexivity.
  - lia.
Defined.
